(** * csv2json-mcp: the CSV to JSON converter and its two remote tools

    A shallow embedding of [csv2json_mcp/converter.py] (class
    [CSVConverter]) and of the two tools registered in
    [csv2json_mcp/server.py], together with the properties the
    specification states about them.

    Python values are modelled as follows.
    - [str] is a [string] holding the UTF-8 bytes of the text; every
      character the code inspects (delimiters, quotes, line ends, JSON
      escapes) is ASCII, and bytes above 127 are carried through untouched.
    - [int] is [Z]; list lengths and [range] indices are [nat].
    - a [dict] is an association list in insertion order whose keys are
      unique ([dict_set] overwrites in place), because [json.dumps] renders
      a dict in insertion order.
    - an exception is a class together with its message [str(e)].
    - file I/O is a state monad over a file system and a log of the calls
      made to the operating system and to the CSV reader. The existence
      test of a path can itself raise, and a text file is decoded while
      its lines are read, so that a decoding error comes after the lines
      that were read before it.
    The standard library and the operating system (codecs, [csv.reader],
    [pathlib]) are the fields of the class [Platform]; every theorem holds
    for any instance, and [cpython] is an executable one. *)

From Stdlib Require Import ZArith Ascii List Lia Bool DecimalString.
From Stdlib Require DecimalNat Finite.
From stdpp Require Import gmap strings.

Set Warnings "-register-all".
Local Open Scope Z_scope.

(* stdpp keeps [String.append] folded; the proofs below compute with it. *)
#[local] Arguments String.append !s1 s2 : simpl nomatch.

(** ** Characters and text *)

Module Chr.
Definition BS : ascii := "008"%char.
Definition TAB : ascii := "009"%char.
Definition LF : ascii := "010"%char.
Definition FF : ascii := "012"%char.
Definition CR : ascii := "013"%char.
Definition SPACE : ascii := "032"%char.
Definition DQUOTE : ascii := "034"%char.
Definition BACKSLASH : ascii := "092"%char.
End Chr.

(** [str(c)] for a single character. *)
Definition chr (c : ascii) : string := String c EmptyString.

(** [sep.join(parts)]. *)
Fixpoint join (sep : string) (parts : list string) : string :=
  match parts with
  | [] => EmptyString
  | [p] => p
  | p :: rest => p +:+ sep +:+ join sep rest
  end.

(** [s * n] for a string [s] and a natural number [n]. *)
Fixpoint str_repeat (s : string) (n : nat) : string :=
  match n with
  | O => EmptyString
  | S n' => s +:+ str_repeat s n'
  end.

(** [str(i)] for a non-negative [int]. *)
Definition str_of_nat (i : nat) : string :=
  NilZero.string_of_uint (Nat.to_uint i).

(** [l[k:]] for any [int] [k]: a negative [k] counts from the end, and the
    bounds are clipped to the list. *)
Definition slice_from {A} (l : list A) (k : Z) : list A :=
  let n := Z.of_nat (length l) in
  let start := if k <? 0 then Z.max 0 (n + k) else Z.min k n in
  skipn (Z.to_nat start) l.

(** [l[a:b]] for non-negative literal bounds. *)
Definition slice {A} (l : list A) (a b : nat) : list A :=
  firstn (b - a) (skipn a l).

(** ** Exceptions *)

Inductive exn_class :=
| FileNotFoundError
| IsADirectoryError
| PermissionError
| OSError
| UnicodeDecodeError
| UnicodeEncodeError
| ValueError
| IndexError
| LookupError
| TypeError
| csv_Error.

Record exn := Exn { exn_class_of : exn_class; str_of_exn : string }.

(** The part of Python's exception hierarchy below [Exception] that the
    handlers of the code distinguish. *)
Definition parent_class (c : exn_class) : option exn_class :=
  match c with
  | FileNotFoundError | IsADirectoryError | PermissionError => Some OSError
  | UnicodeDecodeError | UnicodeEncodeError => Some ValueError
  | IndexError => Some LookupError
  | OSError | ValueError | LookupError | TypeError | csv_Error => None
  end.

Definition exn_class_eqb (c d : exn_class) : bool :=
  match c, d with
  | FileNotFoundError, FileNotFoundError
  | IsADirectoryError, IsADirectoryError
  | PermissionError, PermissionError
  | OSError, OSError
  | UnicodeDecodeError, UnicodeDecodeError
  | UnicodeEncodeError, UnicodeEncodeError
  | ValueError, ValueError
  | IndexError, IndexError
  | LookupError, LookupError
  | TypeError, TypeError
  | csv_Error, csv_Error => true
  | _, _ => false
  end.

(** [isinstance(e, cls)]: the hierarchy has depth two. *)
Definition isinstance (e : exn) (cls : exn_class) : bool :=
  exn_class_eqb (exn_class_of e) cls
  || match parent_class (exn_class_of e) with
     | Some p => exn_class_eqb p cls
     | None => false
     end.

(** ** The file system and the log of external calls *)

Inductive node :=
| File (content : list Byte.byte)
| Dir (st_size : Z).

Inductive event :=
| EvExists (path : string)
| EvStat (path : string)
| EvOpenRead (path : string) (encoding : string)
| EvOpenWrite (path : string) (encoding : string)
| EvWrite (path : string) (data : string)
| EvReadRecords.

(** [fs] holds the nodes that [stat] reaches, under the path string the
    code passes to the operating system: a path is absent from it when
    [stat] fails on it, whatever the reason. Each key names a node of its
    own: that two different strings can name the same file (through [..],
    a hard or a symbolic link) is not modelled, so what is stated of [fs]
    at a path is stated of that name. *)
Record world := World { fs : gmap string node; log : list event }.

(** ** The monad of the converter: state and exceptions *)

Definition M (A : Type) : Type := world -> (exn + A) * world.

Definition ret {A} (a : A) : M A := fun w => (inr a, w).
Definition raise {A} (e : exn) : M A := fun w => (inl e, w).
Definition bind {A B} (m : M A) (k : A -> M B) : M B :=
  fun w => match m w with
           | (inr a, w') => k a w'
           | (inl e, w') => (inl e, w')
           end.

Notation "'do' x <- m ; k" := (bind m (fun x => k))
  (at level 10, x name, m at level 100, k at level 200).
Notation "'do' ' pat <- m ; k" :=
  (bind m (fun x => match x with pat => k end))
  (at level 10, pat pattern, m at level 100, k at level 200).
Notation "'do_' m ; k" := (bind m (fun _ => k))
  (at level 10, m at level 100, k at level 200).

(** [try: body except Exception as e: handler(e)]. *)
Definition try_except {A} (body : M A) (handler : exn -> M A) : M A :=
  fun w => match body w with
           | (inl e, w') => handler e w'
           | r => r
           end.

Definition lift {A} (r : exn + A) : M A :=
  match r with
  | inl e => raise e
  | inr a => ret a
  end.

Definition emit (ev : event) : M unit :=
  fun w => (inr tt, World (fs w) (log w ++ [ev])).

Definition get_fs : M (gmap string node) := fun w => (inr (fs w), w).

Definition put_node (path : string) (n : node) : M unit :=
  fun w => (inr tt, World (<[path := n]> (fs w)) (log w)).

(** ** Text files and in-memory buffers, line by line *)

(** A file opened in text mode without [newline=] translates [\r\n] and a
    lone [\r] to [\n] on input. *)
Fixpoint translate_newlines (s : string) : string :=
  match s with
  | EmptyString => EmptyString
  | String c rest =>
      if Ascii.eqb c Chr.CR then
        match rest with
        | String c' rest' =>
            if Ascii.eqb c' Chr.LF
            then String Chr.LF (translate_newlines rest')
            else String Chr.LF (translate_newlines rest)
        | EmptyString => String Chr.LF EmptyString
        end
      else String c (translate_newlines rest)
  end.

(** The lines of a text, each with its terminating [\n] except possibly the
    last; [cur] is the line being read. *)
Fixpoint lines_from (cur : string) (s : string) : list string :=
  match s with
  | EmptyString =>
      match cur with
      | EmptyString => []
      | _ => [cur]
      end
  | String c rest =>
      if Ascii.eqb c Chr.LF
      then (cur +:+ chr c) :: lines_from EmptyString rest
      else lines_from (cur +:+ chr c) rest
  end.

(** Iterating over a file object opened with [open(path, 'r')]. *)
Definition file_lines (text : string) : list string :=
  lines_from EmptyString (translate_newlines text).

(** Iterating over [StringIO(text)]: lines end at [\n] only, and nothing is
    translated. *)
Definition StringIO_lines (text : string) : list string :=
  lines_from EmptyString text.

(** ** Conversion options *)

Record CSVConversionOptions := {
  delimiter : string;
  encoding : string;
  skip_rows : Z;
  header : bool;
  orient : string;
  indent : option Z
}.

(** [CSVConversionOptions()] *)
Definition default_options : CSVConversionOptions :=
  {| delimiter := ",";
     encoding := "utf-8";
     skip_rows := 0;
     header := true;
     orient := "records";
     indent := None |}.

(** [self.supported_formats] *)
Definition supported_formats : list string := ["records"; "values"; "split"].

(** [x in l] for a list of strings. *)
Definition str_in (x : string) (l : list string) : bool :=
  existsb (String.eqb x) l.
Arguments str_in : simpl never.

(** ** Dictionaries with string values *)

Definition dict : Type := list (string * string).

(** [d[k] = v]: an existing key keeps its position and takes the new value;
    a new key goes last. *)
Fixpoint dict_set (d : dict) (k v : string) : dict :=
  match d with
  | [] => [(k, v)]
  | (k', v') :: rest =>
      if String.eqb k' k then (k', v) :: rest
      else (k', v') :: dict_set rest k v
  end.

Definition dict_keys (d : dict) : list string := map fst d.
Definition dict_values (d : dict) : list string := map snd d.

(** [{headers[i]: row[i] for i in indices}], accumulated in [acc]. *)
Fixpoint dict_comprehension (headers row : list string) (indices : list nat)
    (acc : dict) : exn + dict :=
  match indices with
  | [] => inr acc
  | i :: rest =>
      match headers !! i, row !! i with
      | Some k, Some v => dict_comprehension headers row rest (dict_set acc k v)
      | _, _ => inl (Exn IndexError "list index out of range")
      end
  end.

(** The dict the comprehension builds, as a fold over the paired header
    entries and fields. *)
Definition record_of (headers row : list string) : dict :=
  fold_left (fun d kv => dict_set d (fst kv) (snd kv)) (combine headers row) [].

(** The guard of the loops that build records: the row has [n] fields. *)
Definition has_width (n : nat) (row : list string) : bool :=
  (length row =? n)%nat.

(** [range(n)] *)
Definition range (n : nat) : list nat := seq 0 n.

(** ** JSON values and [json.dumps] *)

Inductive json :=
| JStr (s : string)
| JList (items : list json)
| JDict (items : list (string * json)).

Definition json_of_strs (l : list string) : json := JList (map JStr l).
Definition json_of_rows (rows : list (list string)) : json :=
  JList (map json_of_strs rows).
Definition json_of_dict (d : dict) : json :=
  JDict (map (fun kv => (fst kv, JStr (snd kv))) d).

Definition hex_digit (n : nat) : ascii :=
  nth n (String.list_ascii_of_string "0123456789abcdef") "0"%char.

(** The replacement [json.encoder.ESCAPE_DCT] gives a character, if any. *)
Definition escape_char (c : ascii) : option string :=
  if Ascii.eqb c Chr.BACKSLASH then Some (String Chr.BACKSLASH (chr Chr.BACKSLASH))
  else if Ascii.eqb c Chr.DQUOTE then Some (String Chr.BACKSLASH (chr Chr.DQUOTE))
  else if Ascii.eqb c Chr.BS then Some (String Chr.BACKSLASH "b")
  else if Ascii.eqb c Chr.FF then Some (String Chr.BACKSLASH "f")
  else if Ascii.eqb c Chr.LF then Some (String Chr.BACKSLASH "n")
  else if Ascii.eqb c Chr.CR then Some (String Chr.BACKSLASH "r")
  else if Ascii.eqb c Chr.TAB then Some (String Chr.BACKSLASH "t")
  else
    let n := nat_of_ascii c in
    if (n <? 32)%nat
    then Some (String Chr.BACKSLASH
                 ("u00" +:+ chr (hex_digit (n / 16)) +:+ chr (hex_digit (n mod 16))))
    else None.

(** [ESCAPE.sub(replace, s)] *)
Fixpoint escape (s : string) : string :=
  match s with
  | EmptyString => EmptyString
  | String c rest =>
      match escape_char c with
      | Some r => r +:+ escape rest
      | None => String c (escape rest)
      end
  end.

(** [encode_basestring(s)], the encoder of [ensure_ascii=False]. *)
Definition encode_basestring (s : string) : string :=
  String Chr.DQUOTE (escape s +:+ chr Chr.DQUOTE).

(** ['\n' + _indent * level], or nothing in the compact form. *)
Definition newline_indent (indent : option Z) (level : nat) : string :=
  match indent with
  | None => EmptyString
  | Some n => String Chr.LF (str_repeat (str_repeat " " (Z.to_nat n)) level)
  end.

(** [item_separator]: [', '] by default, [','] once [indent] is given. *)
Definition item_separator (indent : option Z) : string :=
  match indent with
  | None => ", "
  | Some _ => ","
  end.

Definition key_separator : string := ": ".

(** [_iterencode] of [json.encoder], with its chunks joined. *)
Fixpoint iterencode (indent : option Z) (level : nat) (o : json) : string :=
  match o with
  | JStr s => encode_basestring s
  | JList [] => "[]"
  | JList items =>
      "[" +:+ newline_indent indent (S level)
      +:+ join (item_separator indent +:+ newline_indent indent (S level))
               (map (iterencode indent (S level)) items)
      +:+ newline_indent indent level +:+ "]"
  | JDict [] => "{}"
  | JDict items =>
      "{" +:+ newline_indent indent (S level)
      +:+ join (item_separator indent +:+ newline_indent indent (S level))
               (map (fun kv => encode_basestring (fst kv) +:+ key_separator
                               +:+ iterencode indent (S level) (snd kv))
                    items)
      +:+ newline_indent indent level +:+ "}"
  end.

(** [json.dumps(o, ensure_ascii=False, indent=indent)] *)
Definition dumps (o : json) (indent : option Z) : string :=
  iterencode indent 0 o.

(** One row of the ['values'] shape as the encoder writes it at a level. *)
Definition encode_row (indent : option Z) (level : nat) (r : list string)
  : string :=
  iterencode indent level (json_of_strs r).

(** ** Reading the ['values'] text back

    The converter never parses JSON; the round trip of the ['values'] shape
    is stated with the reader a caller would use, [json.loads], on a text
    that is an array of arrays of strings. It follows [json.decoder]:
    [py_scanstring], [JSONArray] and the trailing-data test of [decode]. Any
    other text gives [None]. *)

Module Loads.

(** [WHITESPACE_STR] *)
Definition is_whitespace (c : ascii) : bool :=
  Ascii.eqb c Chr.SPACE || Ascii.eqb c Chr.TAB
  || Ascii.eqb c Chr.LF || Ascii.eqb c Chr.CR.

Fixpoint skip_whitespace (s : string) : string :=
  match s with
  | EmptyString => EmptyString
  | String c rest => if is_whitespace c then skip_whitespace rest else s
  end.

Definition hex_value (c : ascii) : option N :=
  let n := N_of_ascii c in
  if (48 <=? n)%N && (n <=? 57)%N then Some (n - 48)%N
  else if (97 <=? n)%N && (n <=? 102)%N then Some (n - 87)%N
  else if (65 <=? n)%N && (n <=? 70)%N then Some (n - 55)%N
  else None.

(** The code unit of [\uXXXX]. *)
Definition hex4 (a b c d : ascii) : option N :=
  match hex_value a, hex_value b, hex_value c, hex_value d with
  | Some x, Some y, Some z, Some t => Some (((x * 16 + y) * 16 + z) * 16 + t)%N
  | _, _, _, _ => None
  end.

(** The UTF-8 bytes of a code point. *)
Definition utf8_of_code_point (n : N) : string :=
  let byte (k : N) := chr (ascii_of_N k) in
  if (n <? 128)%N then byte n
  else if (n <? 2048)%N then
    byte (192 + n / 64)%N +:+ byte (128 + n mod 64)%N
  else if (n <? 65536)%N then
    byte (224 + n / 4096)%N +:+ byte (128 + (n / 64) mod 64)%N
    +:+ byte (128 + n mod 64)%N
  else
    byte (240 + n / 262144)%N +:+ byte (128 + (n / 4096) mod 64)%N
    +:+ byte (128 + (n / 64) mod 64)%N +:+ byte (128 + n mod 64)%N.

Definition is_high_surrogate (n : N) : bool := (55296 <=? n)%N && (n <=? 56319)%N.
Definition is_low_surrogate (n : N) : bool := (56320 <=? n)%N && (n <=? 57343)%N.

(** [BACKSLASH]: the character a one-letter escape stands for. *)
Definition unescape (c : ascii) : option ascii :=
  if Ascii.eqb c Chr.DQUOTE then Some Chr.DQUOTE
  else if Ascii.eqb c Chr.BACKSLASH then Some Chr.BACKSLASH
  else if Ascii.eqb c "/" then Some "/"%char
  else if Ascii.eqb c "b" then Some Chr.BS
  else if Ascii.eqb c "f" then Some Chr.FF
  else if Ascii.eqb c "n" then Some Chr.LF
  else if Ascii.eqb c "r" then Some Chr.CR
  else if Ascii.eqb c "t" then Some Chr.TAB
  else None.

Definition prepend (prefix : string) (r : option (string * string))
  : option (string * string) :=
  match r with
  | Some (s, rest) => Some (prefix +:+ s, rest)
  | None => None
  end.

(** [py_scanstring] in strict mode, from the character after the opening
    quote: the decoded string and the text after the closing quote. A
    surrogate that is not part of a pair has no UTF-8 form and is
    refused. *)
Fixpoint scanstring (s : string) : option (string * string) :=
  match s with
  | EmptyString => None
  | String c rest =>
      if Ascii.eqb c Chr.DQUOTE then Some (EmptyString, rest)
      else if Ascii.eqb c Chr.BACKSLASH then
        match rest with
        | EmptyString => None
        | String e rest1 =>
            if Ascii.eqb e "u" then
              match rest1 with
              | String h1 (String h2 (String h3 (String h4 rest2))) =>
                  match hex4 h1 h2 h3 h4 with
                  | None => None
                  | Some n =>
                      if is_high_surrogate n then
                        match rest2 with
                        | String b (String u (String l1 (String l2
                            (String l3 (String l4 rest3))))) =>
                            match hex4 l1 l2 l3 l4 with
                            | Some m =>
                                if Ascii.eqb b Chr.BACKSLASH && Ascii.eqb u "u"
                                   && is_low_surrogate m
                                then prepend
                                       (utf8_of_code_point
                                          (65536 + (n - 55296) * 1024
                                           + (m - 56320))%N)
                                       (scanstring rest3)
                                else None
                            | None => None
                            end
                        | _ => None
                        end
                      else if is_low_surrogate n then None
                      else prepend (utf8_of_code_point n) (scanstring rest2)
                  end
              | _ => None
              end
            else
              match unescape e with
              | Some ch => prepend (chr ch) (scanstring rest1)
              | None => None
              end
        end
      else if (N_of_ascii c <? 32)%N then None
      else prepend (chr c) (scanstring rest)
  end.

Section Array.
Context {A : Type} (value : string -> option (A * string)).

(** The loop of [JSONArray]: a value, then [','] and the next value, or
    [']']. One unit of [fuel] is spent per value. *)
Fixpoint array_items (fuel : nat) (s : string) : option (list A * string) :=
  match fuel with
  | O => None
  | S fuel' =>
      match value s with
      | None => None
      | Some (v, rest) =>
          match skip_whitespace rest with
          | EmptyString => None
          | String c rest1 =>
              if Ascii.eqb c "]" then Some ([v], rest1)
              else if Ascii.eqb c "," then
                match array_items fuel' (skip_whitespace rest1) with
                | Some (vs, rest2) => Some (v :: vs, rest2)
                | None => None
                end
              else None
          end
      end
  end.

(** [JSONArray], from the character after the opening bracket. *)
Definition array (s : string) : option (list A * string) :=
  match skip_whitespace s with
  | EmptyString => None
  | String c rest =>
      if Ascii.eqb c "]" then Some ([], rest)
      else array_items (String.length s) (String c rest)
  end.
End Array.

Definition string_value (s : string) : option (string * string) :=
  match s with
  | String c rest => if Ascii.eqb c Chr.DQUOTE then scanstring rest else None
  | EmptyString => None
  end.

Definition row_value (s : string) : option (list string * string) :=
  match s with
  | String c rest => if Ascii.eqb c "[" then array string_value rest else None
  | EmptyString => None
  end.

(** [json.loads(s)] for an array of arrays of strings. *)
Definition loads_rows (s : string) : option (list (list string)) :=
  match skip_whitespace s with
  | String c rest =>
      if Ascii.eqb c "[" then
        match array row_value rest with
        | Some (rows, rest1) =>
            match skip_whitespace rest1 with
            | EmptyString => Some rows
            | _ => None
            end
        | None => None
        end
      else None
  | EmptyString => None
  end.

(** A text the decoder skips as white space, whatever follows it. *)
Definition blank (s : string) : Prop :=
  forall t, skip_whitespace (s +:+ t) = skip_whitespace t.

(** The first character of a text is neither white space nor [']']. *)
Definition starts_value (s : string) : Prop :=
  exists c rest, s = String c rest /\ is_whitespace c = false
                 /\ Ascii.eqb c "]" = false.

End Loads.

(** ** The shape converter: [_convert_to_json_format] *)

(** The loop of the ['records'] branch; [result] is the list built so far. *)
Fixpoint records_loop (headers : list string) (data_rows : list (list string))
    (result : list dict) : exn + list dict :=
  match data_rows with
  | [] => inr result
  | row :: rest =>
      if (length row =? length headers)%nat then
        match dict_comprehension headers row (range (length headers)) [] with
        | inl e => inl e
        | inr record => records_loop headers rest (result ++ [record])
        end
      else records_loop headers rest result
  end.

(** The value of [result] when the [if]/[elif] chain is left. *)
Definition shape (headers : list string) (data_rows : list (list string))
    (options : CSVConversionOptions) : exn + json :=
  if String.eqb (orient options) "records" then
    match records_loop headers data_rows [] with
    | inl e => inl e
    | inr result => inr (JList (map json_of_dict result))
    end
  else if String.eqb (orient options) "values" then
    inr (json_of_rows data_rows)
  else if String.eqb (orient options) "split" then
    inr (JDict [("columns", json_of_strs headers);
                ("data", json_of_rows data_rows)])
  else
    inl (Exn ValueError ("不支持的 JSON 格式: " +:+ orient options)).

Definition _convert_to_json_format (headers : list string)
    (data_rows : list (list string)) (options : CSVConversionOptions)
  : exn + string :=
  match shape headers data_rows options with
  | inl e => inl e
  | inr result => inr (dumps result (indent options))
  end.

(** ** The standard library and the operating system *)

(** A [csv.reader] object: the records it yields and, when the iteration
    ends in an exception instead of [StopIteration], that exception. *)
Definition reader : Type := list (list string) * option exn.

(** A text file open for reading: the lines its iteration yields and,
    when the iteration ends in an exception instead of [StopIteration],
    that exception. The content is decoded while it is read, so the lines
    before a decoding error are yielded before the error is raised. *)
Definition text_file : Type := list string * option exn.

Class Platform := {
  (** is the name a registered codec? *)
  codec_known : string -> bool;
  (** the text of a file of this content read with this encoding, or the
      decoding error that reading it raises; [str.encode(encoding)] *)
  codec_decode : string -> list Byte.byte -> exn + string;
  codec_encode : string -> string -> exn + list Byte.byte;
  (** the lines a file of this content yields before its decoding error *)
  text_lines_before_error : string -> list Byte.byte -> list string;
  (** the exception [csv.reader(f, delimiter=d)] raises when it is built *)
  csv_dialect_error : string -> option exn;
  (** the records of the excel dialect with delimiter [d] over the lines *)
  csv_records : string -> list string -> reader;
  (** the same over lines whose iteration ends in the exception given: the
      records yielded before an exception, and the exception, which is of
      the reader if a line is malformed and the one given otherwise *)
  csv_records_interrupted : string -> list string -> exn -> reader;
  (** [str(Path(s))] *)
  Path : string -> string;
  (** [str(Path(p).with_suffix(suffix))] *)
  with_suffix : string -> string -> exn + string;
  (** how [stat] fails on a path it does not reach: [None] when the answer
      is that nothing has this name (ENOENT, ENOTDIR, EBADF, ELOOP), the
      exception otherwise (a name that is too long, a directory that may
      not be searched) *)
  os_stat_error : string -> option exn;
  (** the error of [open] on an existing file or a new name, if any
      (permissions, a missing parent directory); the flag is true for
      mode ['w'] *)
  os_open_error : bool -> string -> option exn
}.

Definition quote (s : string) : string := "'" +:+ s +:+ "'".

Section Converter.
Context `{Platform}.

(** The exception of a system call on a path that [stat] does not reach. *)
Definition no_such_node (path : string) : exn :=
  match os_stat_error path with
  | Some e => e
  | None =>
      Exn FileNotFoundError
        ("[Errno 2] No such file or directory: " +:+ quote path)
  end.

(** [Path.exists()]: [stat] is called; of its failures only the ones that
    say that nothing has this name give [False], any other is raised. *)
Definition path_exists (path : string) : M bool :=
  do_ emit (EvExists path);
  do files <- get_fs;
  match files !! path with
  | Some _ => ret true
  | None =>
      match os_stat_error path with
      | Some e => raise e
      | None => ret false
      end
  end.

(** [Path.stat().st_size] *)
Definition stat_size (path : string) : M Z :=
  do_ emit (EvStat path);
  do files <- get_fs;
  match files !! path with
  | Some (File content) => ret (Z.of_nat (length content))
  | Some (Dir size) => ret size
  | None => raise (no_such_node path)
  end.

(** [open(path, 'r', encoding=encoding)] *)
Definition open_read (path encoding : string) : M text_file :=
  do_ emit (EvOpenRead path encoding);
  do files <- get_fs;
  match files !! path with
  | None => raise (no_such_node path)
  | Some (Dir _) =>
      raise (Exn IsADirectoryError
               ("[Errno 21] Is a directory: " +:+ quote path))
  | Some (File content) =>
      match os_open_error false path with
      | Some e => raise e
      | None =>
          if codec_known encoding
          then ret (match codec_decode encoding content with
                    | inr text => (file_lines text, None)
                    | inl e => (text_lines_before_error encoding content, Some e)
                    end)
          else raise (Exn LookupError ("unknown encoding: " +:+ encoding))
      end
  end.

(** [open(path, 'w', encoding=encoding)]: the file is created or truncated
    by the operating system before the codec is looked up. *)
Definition open_write (path encoding : string) : M unit :=
  do_ emit (EvOpenWrite path encoding);
  do files <- get_fs;
  match files !! path with
  | Some (Dir _) =>
      raise (Exn IsADirectoryError
               ("[Errno 21] Is a directory: " +:+ quote path))
  | _ =>
      match os_open_error true path with
      | Some e => raise e
      | None =>
          do_ put_node path (File []);
          if codec_known encoding
          then ret tt
          else raise (Exn LookupError ("unknown encoding: " +:+ encoding))
      end
  end.

(** [f.write(data)] on a file opened by [open_write path encoding]. *)
Definition file_write (path encoding data : string) : M unit :=
  do_ emit (EvWrite path data);
  match codec_encode encoding data with
  | inl e => raise e
  | inr content => put_node path (File content)
  end.

(** [StringIO(content)] *)
Definition StringIO (content : string) : text_file :=
  (StringIO_lines content, None).

(** [sum(1 for _ in f)] *)
Definition count_lines (f : text_file) : exn + nat :=
  match snd f with
  | Some e => inl e
  | None => inr (length (fst f))
  end.

(** The records of [csv.reader(f, delimiter=delimiter)] once it is built. *)
Definition records_of_file (f : text_file) (delimiter : string) : reader :=
  match snd f with
  | None => csv_records delimiter (fst f)
  | Some e => csv_records_interrupted delimiter (fst f) e
  end.

(** [csv.reader(f, delimiter=delimiter)] *)
Definition csv_reader (f : text_file) (delimiter : string) : M reader :=
  match csv_dialect_error delimiter with
  | Some e => raise e
  | None => ret (records_of_file f delimiter)
  end.

(** [list(reader)]: the source is consumed here. *)
Definition list_of_reader (r : reader) : M (list (list string)) :=
  do_ emit EvReadRecords;
  match r with
  | (rows, None) => ret rows
  | (_, Some e) => raise e
  end.

(** ** The table reader *)

Inductive source :=
| SrcPath (path : string)
| SrcStringIO (content : string).

Definition _process_csv_reader (r : reader) (options : CSVConversionOptions)
  : M (list string * list (list string)) :=
  do rows <- list_of_reader r;
  let rows := if skip_rows options >? 0
              then slice_from rows (skip_rows options)
              else rows in
  match rows with
  | [] => ret ([], [])
  | first :: rest =>
      if header options then ret (first, rest)
      else ret (map (fun i => "column_" +:+ str_of_nat i) (range (length first)),
                rows)
  end.

Definition _read_csv_data (csv_source : source) (options : CSVConversionOptions)
  : M (list string * list (list string)) :=
  match csv_source with
  | SrcPath path =>
      do f <- open_read path (encoding options);
      do r <- csv_reader f (delimiter options);
      _process_csv_reader r options
  | SrcStringIO content =>
      do r <- csv_reader (StringIO content) (delimiter options);
      _process_csv_reader r options
  end.

(** ** The three conversion entry points *)

Definition options_or_default (options : option CSVConversionOptions)
  : CSVConversionOptions :=
  match options with
  | Some o => o
  | None => default_options
  end.

Definition convert_csv_to_json (csv_file_path : string)
    (options : option CSVConversionOptions) : M string :=
  let options := options_or_default options in
  let csv_path := Path csv_file_path in
  do found <- path_exists csv_path;
  if negb found then
    raise (Exn FileNotFoundError ("CSV 文件不存在: " +:+ csv_file_path))
  else if negb (str_in (orient options) supported_formats) then
    raise (Exn ValueError ("不支持的 JSON 格式: " +:+ orient options))
  else
    try_except
      (do '(headers, data_rows) <- _read_csv_data (SrcPath csv_path) options;
       lift (_convert_to_json_format headers data_rows options))
      (fun e =>
         if isinstance e csv_Error then
           raise (Exn ValueError ("CSV 文件解析错误: " +:+ str_of_exn e))
         else if isinstance e UnicodeDecodeError then
           raise (Exn ValueError ("文件编码错误: " +:+ str_of_exn e))
         else
           raise (Exn ValueError ("转换失败: " +:+ str_of_exn e))).

Definition convert_csv_to_json_file (csv_file_path : string)
    (output_file_path : option string) (options : option CSVConversionOptions)
  : M string :=
  let options := options_or_default options in
  let csv_path := Path csv_file_path in
  do found <- path_exists csv_path;
  if negb found then
    raise (Exn FileNotFoundError ("CSV 文件不存在: " +:+ csv_file_path))
  else if negb (str_in (orient options) supported_formats) then
    raise (Exn ValueError ("不支持的 JSON 格式: " +:+ orient options))
  else
    do output_file_path <-
      match output_file_path with
      | None => lift (with_suffix csv_path ".json")
      | Some p => ret (Path p)
      end;
    try_except
      (do '(headers, data_rows) <- _read_csv_data (SrcPath csv_path) options;
       do json_data <- lift (_convert_to_json_format headers data_rows options);
       do_ open_write output_file_path "utf-8";
       do_ file_write output_file_path "utf-8" json_data;
       ret output_file_path)
      (fun e =>
         if isinstance e csv_Error then
           raise (Exn ValueError ("CSV 文件解析错误: " +:+ str_of_exn e))
         else if isinstance e UnicodeDecodeError then
           raise (Exn ValueError ("文件编码错误: " +:+ str_of_exn e))
         else
           raise (Exn ValueError ("转换失败: " +:+ str_of_exn e))).

Definition convert_csv_string_to_json (csv_content : string)
    (options : option CSVConversionOptions) : M string :=
  let options := options_or_default options in
  try_except
    (do '(headers, data_rows) <- _read_csv_data (SrcStringIO csv_content) options;
     lift (_convert_to_json_format headers data_rows options))
    (fun e =>
       if isinstance e csv_Error then
         raise (Exn ValueError ("CSV 内容解析错误: " +:+ str_of_exn e))
       else
         raise (Exn ValueError ("转换失败: " +:+ str_of_exn e))).

(** ** The info inspector: [get_csv_info] *)

Record csv_info := {
  file_size : Z;
  row_count : Z;
  column_count : nat;
  columns : list string;
  sample_data : list dict;
  file_encoding : string;
  detected_delimiter : string
}.

(** [for i, row in enumerate(reader): if i >= 10: break; rows.append(row)]:
    [items] and [err] are what is left of the reader. *)
Fixpoint enumerate_loop (i : nat) (items : list (list string))
    (err : option exn) (rows : list (list string))
  : exn + list (list string) :=
  match items with
  | [] =>
      match err with
      | Some e => inl e
      | None => inr rows
      end
  | row :: rest =>
      if (10 <=? i)%nat then inr rows
      else enumerate_loop (S i) rest err (rows ++ [row])
  end.

Definition get_csv_info (csv_file_path : string) : M csv_info :=
  let csv_path := Path csv_file_path in
  do found <- path_exists csv_path;
  if negb found then
    raise (Exn FileNotFoundError ("CSV 文件不存在: " +:+ csv_file_path))
  else
    try_except
      (do file_size <- stat_size csv_path;
       do f <- open_read csv_path "utf-8";
       (* [csv.reader(f)]: the default dialect, delimiter [','] *)
       let r : reader := records_of_file f "," in
       do_ emit EvReadRecords;
       do rows <- lift (enumerate_loop 0 (fst r) (snd r) []);
       match rows with
       | [] =>
           ret {| file_size := file_size;
                  row_count := 0;
                  column_count := 0;
                  columns := [];
                  sample_data := [];
                  file_encoding := "utf-8";
                  detected_delimiter := "," |}
       | first_line :: _ =>
           let delimiter := if (1 <? length first_line)%nat then "," else "," in
           do f <- open_read csv_path "utf-8";
           do line_count <- lift (count_lines f);
           let line_count := Z.of_nat line_count in
           let headers :=
             if (1 <? length first_line)%nat then first_line
             else map (fun i => "column_" +:+ str_of_nat i)
                      (range (length first_line)) in
           let column_count := length headers in
           (* the sample loop has the body of the 'records' loop *)
           do sample_data <-
             lift (records_loop headers
                     (if (1 <? length rows)%nat then slice rows 1 4 else [])
                     []);
           ret {| file_size := file_size;
                  row_count := if line_count >? 1 then line_count - 1
                               else line_count;
                  column_count := column_count;
                  columns := headers;
                  sample_data := sample_data;
                  file_encoding := "utf-8";
                  detected_delimiter := delimiter |}
       end)
      (fun e =>
         raise (Exn ValueError ("获取 CSV 文件信息失败: " +:+ str_of_exn e))).

(** ** The two remote tools of [CSV2JSONServer] *)

Inductive pyval :=
| PyBool (b : bool)
| PyStr (s : string).

(** The dict a tool returns, as its items in order. *)
Definition response : Type := list (string * pyval).

Definition convert_csv_file (file_path : string)
    (output_file_path : option string) (delimiter encoding : string)
    (skip_rows : Z) (header : bool) (orient : string) (indent : option Z)
  : M response :=
  try_except
    (let options := {| delimiter := delimiter;
                       encoding := encoding;
                       skip_rows := skip_rows;
                       header := header;
                       orient := orient;
                       indent := indent |} in
     do json_file_path <-
       convert_csv_to_json_file file_path output_file_path (Some options);
     ret [("success", PyBool true);
          ("json_file_path", PyStr json_file_path);
          ("message", PyStr "CSV 文件转换成功，JSON 文件已生成")])
    (fun e =>
       if isinstance e FileNotFoundError then
         ret [("success", PyBool false);
              ("error", PyStr (str_of_exn e));
              ("message", PyStr "文件不存在")]
       else if isinstance e ValueError then
         ret [("success", PyBool false);
              ("error", PyStr (str_of_exn e));
              ("message", PyStr "转换失败")]
       else
         ret [("success", PyBool false);
              ("error", PyStr (str_of_exn e));
              ("message", PyStr "未知错误")]).

Definition convert_csv_string (csv_content : string) (delimiter : string)
    (skip_rows : Z) (header : bool) (orient : string) (indent : option Z)
  : M response :=
  try_except
    (let options := {| delimiter := delimiter;
                       encoding := "utf-8";
                       skip_rows := skip_rows;
                       header := header;
                       orient := orient;
                       indent := indent |} in
     do json_result <- convert_csv_string_to_json csv_content (Some options);
     ret [("success", PyBool true);
          ("json", PyStr json_result);
          ("message", PyStr "CSV 字符串转换成功")])
    (fun e =>
       if isinstance e ValueError then
         ret [("success", PyBool false);
              ("error", PyStr (str_of_exn e));
              ("message", PyStr "转换失败")]
       else
         ret [("success", PyBool false);
              ("error", PyStr (str_of_exn e));
              ("message", PyStr "未知错误")]).

End Converter.

(** ** An executable platform

    [cpython] computes what CPython 3.11 does on a POSIX system for the
    UTF-8 codec behind a text file, the excel dialect of the [csv] module,
    [pathlib] on paths that are already normalised, and [stat] on names
    that are too long. The directories that a path names are taken to
    exist, and files to be readable and writable: [open] refuses nothing.
    It is the instance the examples run on. *)

Module CPython.

(** *** The UTF-8 codec, as the text layer of a file calls it

    A file opened in text mode is read in chunks of 8192 bytes. Each chunk
    goes through the incremental decoder, after the bytes of an incomplete
    sequence that the call before left over; when the chunks run out the
    decoder is called a last time on what is left over. The positions in
    the message of a decoding error count from the first byte of the call
    that fails. *)

Definition continuation (b : N) : bool := ((128 <=? b) && (b <=? 191))%N.

(** What one call of the decoder does with its bytes: it consumes a
    prefix of them, or it fails on the bytes from [start] to [stop]. *)
Inductive scan :=
| Consumed (n : nat)
| Invalid (start stop : nat) (reason : string).

Definition truncated (final : bool) (pos len : nat) : scan :=
  if final then Invalid pos (pos + len) "unexpected end of data"
  else Consumed pos.

Definition bad_continuation (pos len : nat) : scan :=
  Invalid pos (pos + len) "invalid continuation byte".

Fixpoint utf8_scan (final : bool) (bs : list N) (pos : nat) : scan :=
  match bs with
  | [] => Consumed pos
  | b0 :: r0 =>
      if (b0 <? 128)%N then utf8_scan final r0 (S pos)
      else if (b0 <? 194)%N then Invalid pos (S pos) "invalid start byte"
      else if (b0 <? 224)%N then
        match r0 with
        | [] => truncated final pos 1
        | b1 :: r1 =>
            if continuation b1 then utf8_scan final r1 (pos + 2)
            else bad_continuation pos 1
        end
      else if (b0 <? 240)%N then
        match r0 with
        | [] => truncated final pos 1
        | b1 :: r1 =>
            if negb (continuation b1)
               || (if (b1 <? 160)%N then (b0 =? 224)%N else (b0 =? 237)%N)
            then
              match r1 with
              | [] =>
                  (* a truncated surrogate waits for the next call *)
                  if negb final && (b0 =? 237)%N && continuation b1
                     && (160 <=? b1)%N
                  then Consumed pos
                  else bad_continuation pos 1
              | _ => bad_continuation pos 1
              end
            else
              match r1 with
              | [] => truncated final pos 2
              | b2 :: r2 =>
                  if continuation b2 then utf8_scan final r2 (pos + 3)
                  else bad_continuation pos 2
              end
        end
      else if (b0 <? 245)%N then
        match r0 with
        | [] => truncated final pos 1
        | b1 :: r1 =>
            if negb (continuation b1)
               || (if (b1 <? 144)%N then (b0 =? 240)%N else (b0 =? 244)%N)
            then bad_continuation pos 1
            else
              match r1 with
              | [] => truncated final pos 2
              | b2 :: r2 =>
                  if negb (continuation b2) then bad_continuation pos 2
                  else
                    match r2 with
                    | [] => truncated final pos 3
                    | b3 :: r3 =>
                        if continuation b3 then utf8_scan final r3 (pos + 4)
                        else bad_continuation pos 3
                    end
              end
        end
      else Invalid pos (S pos) "invalid start byte"
  end.

(** [str(e)] of the [UnicodeDecodeError] of a call on [data]. *)
Definition decoding_error (data : list N) (start stop : nat)
    (reason : string) : exn :=
  let b := N.to_nat (nth start data 0%N) in
  Exn UnicodeDecodeError
    (if (stop =? S start)%nat then
       "'utf-8' codec can't decode byte 0x"
       +:+ chr (hex_digit (b / 16)%nat) +:+ chr (hex_digit (b mod 16)%nat)
       +:+ " in position " +:+ str_of_nat start +:+ ": " +:+ reason
     else
       "'utf-8' codec can't decode bytes in position "
       +:+ str_of_nat start +:+ "-" +:+ str_of_nat (stop - 1)%nat
       +:+ ": " +:+ reason).

Definition chunk_size : N := 8192.

(** The calls of the decoder over the bytes of a file: [calls] chunks are
    still to be read, the next one ends at [chunk_end], and the bytes
    before [offset] are decoded. The result is the number of bytes that
    the calls that returned have decoded, and the error of the call that
    failed, if one did. *)
Fixpoint decode_calls (calls : nat) (chunk_end offset : N) (bs : list N)
  : nat * option exn :=
  let rest := skipn (N.to_nat offset) bs in
  match calls with
  | O =>
      match utf8_scan true rest 0 with
      | Consumed n => ((N.to_nat offset + n)%nat, None)
      | Invalid start stop reason =>
          (N.to_nat offset, Some (decoding_error rest start stop reason))
      end
  | S calls' =>
      let data := firstn (N.to_nat (chunk_end - offset)) rest in
      match utf8_scan false data 0 with
      | Consumed n =>
          decode_calls calls' (chunk_end + chunk_size)%N (offset + N.of_nat n)%N bs
      | Invalid start stop reason =>
          (N.to_nat offset, Some (decoding_error data start stop reason))
      end
  end.

Definition read_text (content : list Byte.byte) : nat * option exn :=
  let chunks := ((N.of_nat (length content) + chunk_size - 1) / chunk_size)%N in
  decode_calls (N.to_nat chunks) chunk_size 0 (map Byte.to_N content).

Definition utf8_names : list string :=
  ["utf-8"; "utf8"; "utf_8"; "UTF-8"; "UTF8"; "U8"].

Definition known (encoding : string) : bool := str_in encoding utf8_names.

Definition decode (encoding : string) (content : list Byte.byte)
  : exn + string :=
  match read_text content with
  | (_, None) => inr (String.string_of_list_byte content)
  | (_, Some e) => inl e
  end.

Fixpoint ends_with (c : ascii) (s : string) : bool :=
  match s with
  | EmptyString => false
  | String a EmptyString => Ascii.eqb a c
  | String _ rest => ends_with c rest
  end.

Fixpoint without_last_cr (s : string) : string :=
  match s with
  | EmptyString => EmptyString
  | String a EmptyString => if Ascii.eqb a Chr.CR then EmptyString else s
  | String a rest => String a (without_last_cr rest)
  end.

(** The lines that end in the text decoded before the call that fails: a
    carriage return at the end of that text is held back until more is
    read, and so is a line that has no end yet. *)
Definition lines_before_error (encoding : string) (content : list Byte.byte)
  : list string :=
  let text := String.string_of_list_byte (firstn (fst (read_text content)) content) in
  filter (ends_with Chr.LF)
         (lines_from EmptyString (translate_newlines (without_last_cr text))).

Definition encode (encoding : string) (text : string)
  : exn + list Byte.byte :=
  inr (String.list_byte_of_string text).

(** *** The reader of the [csv] module, excel dialect

    [quotechar] is the double quote, [doublequote] is set, there is no
    [escapechar], [skipinitialspace] and [strict] are off. The reader
    works on the characters of a line: a character is the text of one
    UTF-8 sequence, and the limit on a field counts characters. *)

(** The characters of a text: a byte above 127 and the continuation bytes
    that follow it are one character. *)
Fixpoint characters (s : string) : list string :=
  match s with
  | EmptyString => []
  | String c rest =>
      match characters rest with
      | String c' more :: others =>
          if (127 <? N_of_ascii c)%N && continuation (N_of_ascii c')
          then String c (String c' more) :: others
          else chr c :: String c' more :: others
      | others => chr c :: others
      end
  end.

Inductive parser_state :=
| START_RECORD
| START_FIELD
| IN_FIELD
| IN_QUOTED_FIELD
| QUOTE_IN_QUOTED_FIELD
| EAT_CRNL.

Record parser := {
  state : parser_state;
  field : string;
  field_len : N;
  fields : list string
}.

Definition parse_reset : parser :=
  {| state := START_RECORD; field := EmptyString; field_len := 0;
     fields := [] |}.

Definition field_size_limit : N := 131072.

Definition parse_save_field (st : parser_state) (p : parser) : parser :=
  {| state := st; field := EmptyString; field_len := 0;
     fields := fields p ++ [field p] |}.

Definition parse_add_char (st : parser_state) (p : parser) (c : string)
  : exn + parser :=
  if (field_size_limit <=? field_len p)%N then
    inl (Exn csv_Error "field larger than field limit (131072)")
  else
    inr {| state := st; field := field p +:+ c;
           field_len := field_len p + 1; fields := fields p |}.

Definition set_state (st : parser_state) (p : parser) : parser :=
  {| state := st; field := field p; field_len := field_len p;
     fields := fields p |}.

Definition is_newline (c : string) : bool :=
  String.eqb c (chr Chr.LF) || String.eqb c (chr Chr.CR).

Definition is_quote (c : string) : bool := String.eqb c (chr Chr.DQUOTE).

(** [parse_process_char]; [None] is the end-of-line mark [EOL]. *)
Definition parse_process_char (delim : string) (p : parser)
    (c : option string) : exn + parser :=
  let start_field :=
    match c with
    | None => inr (parse_save_field START_RECORD p)
    | Some ch =>
        if is_newline ch then inr (parse_save_field EAT_CRNL p)
        else if is_quote ch then inr (set_state IN_QUOTED_FIELD p)
        else if String.eqb ch delim then inr (parse_save_field START_FIELD p)
        else parse_add_char IN_FIELD p ch
    end in
  match state p with
  | START_RECORD =>
      match c with
      | None => inr p
      | Some ch =>
          if is_newline ch then inr (set_state EAT_CRNL p)
          else start_field
      end
  | START_FIELD => start_field
  | IN_FIELD =>
      match c with
      | None => inr (parse_save_field START_RECORD p)
      | Some ch =>
          if is_newline ch then inr (parse_save_field EAT_CRNL p)
          else if String.eqb ch delim then inr (parse_save_field START_FIELD p)
          else parse_add_char IN_FIELD p ch
      end
  | IN_QUOTED_FIELD =>
      match c with
      | None => inr p
      | Some ch =>
          if is_quote ch
          then inr (set_state QUOTE_IN_QUOTED_FIELD p)
          else parse_add_char IN_QUOTED_FIELD p ch
      end
  | QUOTE_IN_QUOTED_FIELD =>
      match c with
      | None => inr (parse_save_field START_RECORD p)
      | Some ch =>
          if is_quote ch then parse_add_char IN_QUOTED_FIELD p ch
          else if String.eqb ch delim then inr (parse_save_field START_FIELD p)
          else if is_newline ch then inr (parse_save_field EAT_CRNL p)
          else parse_add_char IN_FIELD p ch
      end
  | EAT_CRNL =>
      match c with
      | None => inr (set_state START_RECORD p)
      | Some ch =>
          if is_newline ch then inr p
          else inl (Exn csv_Error
                      ("new-line character seen in unquoted field - "
                       +:+ "do you need to open the file in universal-newline mode?"))
      end
  end.

(** The characters of one line, then [EOL]. *)
Fixpoint parse_line (delim : string) (p : parser) (line : list string)
  : exn + parser :=
  match line with
  | [] => parse_process_char delim p None
  | c :: rest =>
      match parse_process_char delim p (Some c) with
      | inl e => inl e
      | inr p' => parse_line delim p' rest
      end
  end.

(** [Reader_iternext], called until the lines run out; [p] is the parser
    inside the record being read and [acc] the records already yielded. *)
Fixpoint read_records (delim : string) (p : parser) (lines : list string)
    (acc : list (list string)) : reader :=
  match lines with
  | [] =>
      match state p with
      | IN_QUOTED_FIELD => (acc ++ [fields p ++ [field p]], None)
      | _ =>
          if (field_len p =? 0)%N then (acc, None)
          else (acc ++ [fields p ++ [field p]], None)
      end
  | line :: rest =>
      match parse_line delim p (characters line) with
      | inl e => (acc, Some e)
      | inr p' =>
          match state p' with
          | START_RECORD =>
              read_records delim parse_reset rest (acc ++ [fields p'])
          | _ => read_records delim p' rest acc
          end
      end
  end.

Definition dialect_error (delimiter : string) : option exn :=
  match characters delimiter with
  | [_] => None
  | _ =>
      Some (Exn TypeError
              (chr Chr.DQUOTE +:+ "delimiter" +:+ chr Chr.DQUOTE
               +:+ " must be a 1-character string"))
  end.

Definition records (delimiter : string) (lines : list string) : reader :=
  read_records delimiter parse_reset lines [].

(** [Reader_iternext] over lines whose iteration raises [stop] when they
    run out: the record being read is not yielded. *)
Fixpoint read_records_until (stop : exn) (delim : string) (p : parser)
    (lines : list string) (acc : list (list string)) : reader :=
  match lines with
  | [] => (acc, Some stop)
  | line :: rest =>
      match parse_line delim p (characters line) with
      | inl e => (acc, Some e)
      | inr p' =>
          match state p' with
          | START_RECORD =>
              read_records_until stop delim parse_reset rest (acc ++ [fields p'])
          | _ => read_records_until stop delim p' rest acc
          end
      end
  end.

Definition records_interrupted (delimiter : string) (lines : list string)
    (stop : exn) : reader :=
  read_records_until stop delimiter parse_reset lines [].

(** *** [pathlib] *)

(** The text before and after the last occurrence of [c]. *)
Fixpoint rsplit (c : ascii) (s : string) : option (string * string) :=
  match s with
  | EmptyString => None
  | String a rest =>
      match rsplit c rest with
      | Some (pre, post) => Some (String a pre, post)
      | None => if Ascii.eqb a c then Some (EmptyString, rest) else None
      end
  end.

Definition replace_suffix (path suffix : string) : exn + string :=
  let '(parent, name) :=
    match rsplit "/" path with
    | Some (d, n) => (d +:+ "/", n)
    | None => (EmptyString, path)
    end in
  if String.eqb name EmptyString || String.eqb name "." then
    inl (Exn ValueError ("PosixPath(" +:+ quote path +:+ ") has an empty name"))
  else
    match rsplit "." name with
    | Some (String c stem, String c' ext) =>
        inr (parent +:+ String c stem +:+ suffix)
    | _ => inr (parent +:+ name +:+ suffix)
    end.

(** *** [stat] *)

(** Is a name of the path longer than 255 bytes? [run] is the length of
    the name being read. *)
Fixpoint name_too_long (run : nat) (path : string) : bool :=
  match path with
  | EmptyString => (255 <? run)%nat
  | String c rest =>
      if Ascii.eqb c "/" then (255 <? run)%nat || name_too_long 0 rest
      else name_too_long (S run) rest
  end.

(** [stat] fails with ENAMETOOLONG on a name of more than 255 bytes (the
    directory it is looked up in exists) and on a path of 4096 bytes and
    more, and with ENOENT on any other path it does not reach. *)
Definition stat_error (path : string) : option exn :=
  if name_too_long 0 path || (4095 <? String.length path)%nat
  then Some (Exn OSError ("[Errno 36] File name too long: " +:+ quote path))
  else None.

End CPython.

#[export] Instance cpython : Platform := {|
  codec_known := CPython.known;
  codec_decode := CPython.decode;
  codec_encode := CPython.encode;
  text_lines_before_error := CPython.lines_before_error;
  csv_dialect_error := CPython.dialect_error;
  csv_records := CPython.records;
  csv_records_interrupted := CPython.records_interrupted;
  Path := fun s => s;
  with_suffix := CPython.replace_suffix;
  os_stat_error := CPython.stat_error;
  os_open_error := fun _ _ => None
|}.

(** A file system holding the given text files, and an empty log. *)
Definition world_of_files (files : list (string * string)) : world :=
  World (list_to_map
           (map (fun kv => (fst kv, File (String.list_byte_of_string (snd kv))))
                files))
        [].

Definition with_orient (o : string) (options : CSVConversionOptions)
  : CSVConversionOptions :=
  {| delimiter := delimiter options;
     encoding := encoding options;
     skip_rows := skip_rows options;
     header := header options;
     orient := o;
     indent := indent options |}.

Definition with_skip_rows (n : Z) (options : CSVConversionOptions)
  : CSVConversionOptions :=
  {| delimiter := delimiter options;
     encoding := encoding options;
     skip_rows := n;
     header := header options;
     orient := orient options;
     indent := indent options |}.

(** ** Observations on runs *)

(** A computation that leaves the file system as it found it, whatever it
    returns or raises. *)
Definition read_only {A} (m : M A) : Prop :=
  forall w, fs (snd (m w)) = fs w.

(** A computation that looks at the file system at the given paths only,
    and otherwise only adds calls to the log: on two worlds that agree at
    these paths it gives the same outcome and logs the same calls. *)
Definition local_on (paths : list string) {A} (m : M A) : Prop :=
  forall w1 w2,
    (forall p, In p paths -> fs w1 !! p = fs w2 !! p) ->
    exists r events,
      m w1 = (r, World (fs w1) (log w1 ++ events))
      /\ m w2 = (r, World (fs w2) (log w2 ++ events)).

(** The outcome either is a result or an exception of one of the classes. *)
Definition raises_within {A} (classes : list exn_class) (r : exn + A) : bool :=
  match r with
  | inl e => existsb (exn_class_eqb (exn_class_of e)) classes
  | inr _ => true
  end.

(** [d.get(k)] *)
Fixpoint dict_get (d : dict) (k : string) : option string :=
  match d with
  | [] => None
  | (k', v) :: rest => if String.eqb k' k then Some v else dict_get rest k
  end.

(** [r.get(k)] on the dict a tool returns. *)
Fixpoint response_get (r : response) (k : string) : option pyval :=
  match r with
  | [] => None
  | (k', v) :: rest => if String.eqb k' k then Some v else response_get rest k
  end.

(** The text has no carriage return. *)
Fixpoint no_carriage_return (s : string) : bool :=
  match s with
  | EmptyString => true
  | String c rest => negb (Ascii.eqb c Chr.CR) && no_carriage_return rest
  end.

(** No character of the text is a control character (below 32); in
    particular the text has no line break. *)
Fixpoint no_control (s : string) : bool :=
  match s with
  | EmptyString => true
  | String c rest => (32 <=? N_of_ascii c)%N && no_control rest
  end.

(** The existence test of the path answers: [stat] reaches the path, or it
    says that nothing has this name. *)
Definition exists_answers `{Platform} (path : string) (w : world) : Prop :=
  is_Some (fs w !! path) \/ os_stat_error path = None.

(** ** Inputs of the examples *)

Definition newline : string := chr Chr.LF.

(** The text of the specification's example. *)
Definition people_csv : string :=
  "name,age" +:+ newline +:+ "Alice,25" +:+ newline +:+ "Bob,30".

Definition people_world : world := world_of_files [("people.csv", people_csv)].

(** A name that is longer than a file name may be. *)
Definition long_name : string := str_repeat "a" 300.

Definition pivot_options : CSVConversionOptions :=
  with_orient "pivot" default_options.

(** Five lines, two of them a preamble. *)
Definition preamble_csv : string :=
  "# export" +:+ newline +:+ "# v2" +:+ newline
  +:+ "id,city" +:+ newline +:+ "1,Oslo" +:+ newline +:+ "2,Rome" +:+ newline.

(** Options that name the source codec by an alias. *)
Definition alias_options : CSVConversionOptions :=
  {| delimiter := ","; encoding := "utf8"; skip_rows := 0; header := true;
     orient := "records"; indent := None |}.



Definition no_header_options : CSVConversionOptions :=
  {| delimiter := ","; encoding := "utf-8"; skip_rows := 0; header := false;
     orient := "split"; indent := None |}.

(** * Properties *)

(** ** The monad *)

Ltac unfold_monad :=
  unfold bind, ret, raise, lift, emit, get_fs, put_node, try_except in *.

Lemma bind_inr {A B} (m : M A) (k : A -> M B) w b w' :
  bind m k w = (inr b, w') ->
  exists a w1, m w = (inr a, w1) /\ k a w1 = (inr b, w').
Proof.
  unfold bind. destruct (m w) as [[e | a] w1]; intros Hk.
  - discriminate.
  - exists a, w1. split; [reflexivity | exact Hk].
Qed.



Lemma try_except_inr {A} (body : M A) (h : exn -> M A) w a w' :
  (forall e w1, exists e', h e w1 = (inl e', w1)) ->
  try_except body h w = (inr a, w') -> body w = (inr a, w').
Proof.
  intros Hh. unfold try_except.
  destruct (body w) as [[e | a0] w1]; intros Hr; [| exact Hr].
  destruct (Hh e w1) as [e' He']. rewrite He' in Hr. discriminate.
Qed.

(** ** Text *)

Lemma append_assoc (a b c : string) : (a +:+ b) +:+ c = a +:+ (b +:+ c).
Proof. induction a as [| x a IH]; cbn; [reflexivity | rewrite IH; reflexivity]. Qed.

Lemma append_nil_r (a : string) : a +:+ EmptyString = a.
Proof. induction a as [| x a IH]; cbn; [reflexivity | rewrite IH; reflexivity]. Qed.

Lemma length_append (a b : string) :
  String.length (a +:+ b) = (String.length a + String.length b)%nat.
Proof. induction a as [| x a IH]; cbn; [reflexivity | rewrite IH; reflexivity]. Qed.

Lemma join_cons (sep x y : string) (l : list string) :
  join sep (x :: y :: l) = x +:+ sep +:+ join sep (y :: l).
Proof. reflexivity. Qed.

Lemma iterencode_list (indent : option Z) (level : nat) (x : json)
    (items : list json) :
  iterencode indent level (JList (x :: items))
  = "[" +:+ newline_indent indent (S level)
    +:+ join (item_separator indent +:+ newline_indent indent (S level))
             (map (iterencode indent (S level)) (x :: items))
    +:+ newline_indent indent level +:+ "]".
Proof. reflexivity. Qed.

(** ** Reading back what [json.dumps] wrote *)

Module LoadsDumps.
Import Loads.

Lemma blank_empty : blank EmptyString.
Proof. intros t. reflexivity. Qed.

Lemma blank_app (a b : string) : blank a -> blank b -> blank (a +:+ b).
Proof. intros Ha Hb t. rewrite append_assoc, Ha, Hb. reflexivity. Qed.

Lemma blank_cons (c : ascii) (s : string) :
  is_whitespace c = true -> blank s -> blank (String c s).
Proof. intros Hc Hs t. cbn. rewrite Hc. apply Hs. Qed.

Lemma blank_spaces (n : nat) : blank (str_repeat " " n).
Proof.
  induction n as [| n IH]; [apply blank_empty |].
  cbn. apply blank_cons; [reflexivity | exact IH].
Qed.

Lemma blank_repeat (s : string) (n : nat) : blank s -> blank (str_repeat s n).
Proof.
  intros Hs. induction n as [| n IH]; [apply blank_empty |].
  cbn. apply blank_app; assumption.
Qed.

Lemma blank_newline_indent (indent : option Z) (level : nat) :
  blank (newline_indent indent level).
Proof.
  destruct indent as [n |]; [| apply blank_empty].
  cbn. apply blank_cons; [reflexivity |].
  apply blank_repeat, blank_spaces.
Qed.

Lemma skip_starts_value (s t : string) :
  starts_value s -> skip_whitespace (s +:+ t) = s +:+ t.
Proof.
  intros (c & rest & -> & Hws & _). cbn. rewrite Hws. reflexivity.
Qed.

(** *** Strings *)

(** One character of the encoder's output is read back as itself. *)
Lemma scanstring_escape_char (c : ascii) (s rest : string) :
  scanstring (escape (String c s) +:+ rest)
  = prepend (chr c) (scanstring (escape s +:+ rest)).
Proof.
  destruct c as [[] [] [] [] [] [] [] []]; reflexivity.
Qed.

Lemma scanstring_escape (s rest : string) :
  scanstring (escape s +:+ String Chr.DQUOTE rest) = Some (s, rest).
Proof.
  induction s as [| c s IH]; [reflexivity |].
  rewrite scanstring_escape_char, IH. reflexivity.
Qed.

Lemma string_value_encode (s rest : string) :
  string_value (encode_basestring s +:+ rest) = Some (s, rest).
Proof.
  unfold encode_basestring, string_value. cbn.
  rewrite append_assoc. apply scanstring_escape.
Qed.

Lemma encode_basestring_starts (s : string) :
  starts_value (encode_basestring s).
Proof. eexists _, _. repeat split. Qed.

(** *** Arrays *)

Section Array.
Context {A : Type} (value : string -> option (A * string)) (enc : A -> string).
Hypothesis value_enc : forall a rest, value (enc a +:+ rest) = Some (a, rest).
Hypothesis enc_starts : forall a, starts_value (enc a).

Lemma join_starts (sep : string) (a : A) (items : list A) :
  starts_value (join sep (map enc (a :: items))).
Proof.
  destruct (enc_starts a) as (c & rest & Ha & Hws & Hclose).
  destruct items as [| b items]; cbn [map].
  - cbn [join]. rewrite Ha. eexists _, _. repeat split; assumption.
  - rewrite join_cons, Ha. cbn [String.append].
    eexists _, _. repeat split; assumption.
Qed.

Lemma length_join (sep : string) (items : list A) :
  (length items <= String.length (join sep (map enc items)))%nat.
Proof.
  induction items as [| a items IH]; [cbn; lia |].
  destruct (enc_starts a) as (c & rest & Ha & _).
  destruct items as [| b items].
  - cbn. rewrite Ha. cbn. lia.
  - cbn [map] in *. rewrite join_cons, !length_append, Ha.
    cbn [String.length length] in *. lia.
Qed.

Lemma array_items_join (gap close : string) :
  blank gap -> blank close ->
  forall (items : list A) (a : A) (fuel : nat) (rest : string),
    (length (a :: items) <= fuel)%nat ->
    array_items value fuel
      (join (String "," gap) (map enc (a :: items))
       +:+ close +:+ String "]" rest)
    = Some (a :: items, rest).
Proof.
  intros Hgap Hclose.
  induction items as [| b items IH]; intros a fuel rest Hfuel;
    (destruct fuel as [| fuel]; [cbn in Hfuel; lia |]).
  - cbn [map join array_items]. rewrite value_enc.
    rewrite Hclose. reflexivity.
  - cbn [map array_items]. rewrite join_cons, append_assoc, value_enc.
    rewrite append_assoc. cbn [String.append skip_whitespace].
    change (is_whitespace ",") with false. cbv iota.
    change (Ascii.eqb "," "]") with false.
    change (Ascii.eqb "," ",") with true. cbv iota.
    rewrite Hgap.
    rewrite skip_starts_value by apply (join_starts _ b items).
    cbn [map] in IH. rewrite IH; [reflexivity |].
    cbn [length] in *. lia.
Qed.

Lemma array_unfold (s : string) (c : ascii) (tail : string) :
  skip_whitespace s = String c tail -> Ascii.eqb c "]" = false ->
  array value s = array_items value (String.length s) (String c tail).
Proof. unfold array. intros -> ->. reflexivity. Qed.

(** A non-empty array as the encoder lays it out, read from the
    character after its opening bracket. *)
Lemma array_join (open gap close : string) (a : A) (items : list A)
    (rest : string) :
  blank open -> blank gap -> blank close ->
  array value
    (open +:+ join (String "," gap) (map enc (a :: items))
     +:+ close +:+ String "]" rest)
  = Some (a :: items, rest).
Proof.
  intros Hopen Hgap Hclose.
  pose proof (join_starts (String "," gap) a items) as Hstart.
  pose proof Hstart as (c & tail & Hjoin & Hws & Hc).
  rewrite (array_unfold _ c (tail +:+ close +:+ String "]" rest)).
  - change (String c (tail +:+ close +:+ String "]" rest))
      with (String c tail +:+ close +:+ String "]" rest).
    rewrite <- Hjoin.
    apply array_items_join; [exact Hgap | exact Hclose |].
    rewrite !length_append.
    pose proof (length_join (String "," gap) (a :: items)). lia.
  - rewrite Hopen, skip_starts_value by exact Hstart.
    rewrite Hjoin. reflexivity.
  - exact Hc.
Qed.

Lemma array_empty (rest : string) :
  array value (String "]" rest) = Some ([], rest).
Proof. reflexivity. Qed.
End Array.

(** The separator between two items, split into its comma and the blank
    text after it. *)
Lemma separator_split (indent : option Z) (level : nat) :
  exists gap,
    item_separator indent +:+ newline_indent indent level = String "," gap
    /\ blank gap.
Proof.
  destruct indent as [n |].
  - exists (newline_indent (Some n) level).
    split; [reflexivity | apply blank_newline_indent].
  - exists " ". split; [reflexivity |].
    apply blank_cons; [reflexivity | apply blank_empty].
Qed.

(** An array of values as [iterencode] writes it. *)
Lemma array_iterencode {A : Type} (value : string -> option (A * string))
    (enc : A -> string) (indent : option Z) (level : nat)
    (a : A) (items : list A) (rest : string) :
  (forall x r, value (enc x +:+ r) = Some (x, r)) ->
  (forall x, starts_value (enc x)) ->
  array value
    ((newline_indent indent (S level)
      +:+ join (item_separator indent +:+ newline_indent indent (S level))
               (map enc (a :: items))
      +:+ newline_indent indent level +:+ "]") +:+ rest)
  = Some (a :: items, rest).
Proof.
  intros Hvalue Hstarts.
  destruct (separator_split indent (S level)) as (gap & -> & Hgap).
  rewrite !append_assoc. cbn [String.append].
  apply array_join; try assumption; apply blank_newline_indent.
Qed.

Lemma iterencode_strs (indent : option Z) (level : nat) (r : list string) :
  map (iterencode indent level) (map JStr r) = map encode_basestring r.
Proof. rewrite map_map. reflexivity. Qed.

(** *** Rows *)

Lemma row_value_encode (indent : option Z) (level : nat) (r : list string)
    (rest : string) :
  row_value (encode_row indent level r +:+ rest) = Some (r, rest).
Proof.
  unfold encode_row, json_of_strs. destruct r as [| x r]; [reflexivity |].
  cbn [map]. rewrite iterencode_list.
  change (JStr x :: map JStr r) with (map JStr (x :: r)).
  rewrite iterencode_strs. cbn [String.append row_value].
  change (Ascii.eqb "[" "[") with true. cbv iota.
  apply array_iterencode;
    [apply string_value_encode | apply encode_basestring_starts].
Qed.

Lemma encode_row_starts (indent : option Z) (level : nat) (r : list string) :
  starts_value (encode_row indent level r).
Proof.
  unfold encode_row, json_of_strs. destruct r as [| x r].
  - eexists _, _. repeat split.
  - cbn. eexists _, _. repeat split.
Qed.

(** [json.loads] gives back the rows that [json.dumps] was given. *)
Lemma loads_dumps_rows (rows : list (list string)) (indent : option Z) :
  loads_rows (dumps (json_of_rows rows) indent) = Some rows.
Proof.
  unfold dumps, json_of_rows. destruct rows as [| r rows]; [reflexivity |].
  cbn [map]. rewrite iterencode_list.
  change (json_of_strs r :: map json_of_strs rows)
    with (map json_of_strs (r :: rows)).
  rewrite map_map. fold (encode_row indent 1).
  unfold loads_rows. cbn [String.append skip_whitespace].
  change (is_whitespace "[") with false. cbv iota.
  change (Ascii.eqb "[" "[") with true. cbv iota.
  rewrite <- (append_nil_r (_ +:+ _ +:+ _ +:+ "]")).
  rewrite array_iterencode;
    [reflexivity | apply row_value_encode | apply encode_row_starts].
Qed.

End LoadsDumps.

(** ** The table reader *)

Lemma slice_from_positive {A} (l : list A) (k : Z) :
  0 < k -> slice_from l k = skipn (Z.to_nat k) l.
Proof.
  intros Hk. unfold slice_from.
  destruct (Z.ltb_spec k 0) as [Hneg | _]; [lia |].
  destruct (Z.le_gt_cases k (Z.of_nat (length l))) as [Hle | Hgt].
  - rewrite Z.min_l by exact Hle. reflexivity.
  - rewrite Z.min_r by lia. rewrite Nat2Z.id.
    rewrite !drop_ge; [reflexivity | lia | lia].
Qed.

(** The records left once [skip_rows] has been applied: the guarded slice of
    the code drops [max 0 skip_rows] records. *)
Lemma skip_rows_drop {A} (l : list A) (k : Z) :
  (if k >? 0 then slice_from l k else l) = skipn (Z.to_nat k) l.
Proof.
  destruct (Z.gtb_spec k 0) as [Hpos | Hnonpos].
  - apply slice_from_positive. lia.
  - replace (Z.to_nat k) with 0%nat by lia. reflexivity.
Qed.

(** ** Records *)

Lemma dict_comprehension_fold (pre pre' hs rs : list string) (acc : dict) :
  length pre = length pre' -> length hs = length rs ->
  dict_comprehension (pre ++ hs) (pre' ++ rs) (seq (length pre) (length hs)) acc
  = inr (fold_left (fun d kv => dict_set d (fst kv) (snd kv)) (combine hs rs) acc).
Proof.
  revert pre pre' rs acc.
  induction hs as [| h hs IH]; intros pre pre' [| r rs] acc Hpre Hlen;
    try discriminate; [reflexivity |].
  cbn [length seq dict_comprehension combine fold_left fst snd].
  rewrite list_lookup_middle by reflexivity.
  rewrite list_lookup_middle by exact Hpre.
  replace (pre ++ h :: hs) with ((pre ++ [h]) ++ hs)
    by (rewrite <- app_assoc; reflexivity).
  replace (pre' ++ r :: rs) with ((pre' ++ [r]) ++ rs)
    by (rewrite <- app_assoc; reflexivity).
  replace (S (length pre)) with (length (pre ++ [h]))
    by (rewrite length_app; cbn; lia).
  apply IH.
  - rewrite !length_app. cbn. lia.
  - cbn in Hlen. lia.
Qed.

(** Under the guard of the loop the comprehension never raises. *)
Lemma dict_comprehension_record (headers row : list string) :
  length row = length headers ->
  dict_comprehension headers row (range (length headers)) []
  = inr (record_of headers row).
Proof.
  intros Hlen.
  apply (dict_comprehension_fold [] [] headers row []);
    [reflexivity | symmetry; exact Hlen].
Qed.

(** The loop of the ['records'] branch never raises: it appends one record
    per row of the header's width, in order, and passes over the others. *)
Lemma records_loop_filter (headers : list string)
    (data_rows : list (list string)) (result : list dict) :
  records_loop headers data_rows result
  = inr (result ++ map (record_of headers)
                       (List.filter (has_width (length headers)) data_rows)).
Proof.
  revert result. induction data_rows as [| row rest IH]; intros result.
  - cbn. rewrite app_nil_r. reflexivity.
  - cbn [records_loop List.filter]. unfold has_width at 1.
    destruct (Nat.eqb_spec (length row) (length headers)) as [Hlen | Hlen].
    + rewrite dict_comprehension_record by exact Hlen.
      rewrite IH. rewrite <- app_assoc. reflexivity.
    + apply IH.
Qed.

Lemma dict_set_fresh (d : dict) (k v : string) :
  ~ In k (dict_keys d) -> dict_set d k v = d ++ [(k, v)].
Proof.
  induction d as [| [k' v'] d IH]; intros Hfresh; [reflexivity |].
  cbn in *. destruct (String.eqb_spec k' k) as [Heq | Hne].
  - exfalso. apply Hfresh. left. exact Heq.
  - rewrite IH; [reflexivity |]. intros Hin. apply Hfresh. right. exact Hin.
Qed.

Lemma fold_dict_set_fresh (hs rs : list string) (acc : dict) :
  length hs = length rs -> List.NoDup (dict_keys acc ++ hs) ->
  fold_left (fun d kv => dict_set d (fst kv) (snd kv)) (combine hs rs) acc
  = acc ++ combine hs rs.
Proof.
  revert rs acc. induction hs as [| h hs IH]; intros [| r rs] acc Hlen Hnodup;
    try discriminate.
  - cbn. rewrite app_nil_r. reflexivity.
  - cbn [combine fold_left fst snd].
    assert (Hfresh : ~ In h (dict_keys acc)).
    { intros Hin. apply NoDup_remove_2 in Hnodup. apply Hnodup.
      apply in_or_app. left. exact Hin. }
    rewrite dict_set_fresh by exact Hfresh.
    rewrite IH.
    + rewrite <- app_assoc. reflexivity.
    + cbn in Hlen. lia.
    + unfold dict_keys in *. rewrite map_app. cbn.
      rewrite <- app_assoc. exact Hnodup.
Qed.

(** With pairwise distinct header entries the record pairs header [i] with
    field [i]. *)
Lemma record_of_distinct (headers row : list string) :
  List.NoDup headers -> length row = length headers ->
  record_of headers row = combine headers row.
Proof.
  intros Hnodup Hlen. unfold record_of.
  rewrite fold_dict_set_fresh; [reflexivity | symmetry; exact Hlen | exact Hnodup].
Qed.

Lemma keys_of_combine (hs rs : list string) :
  length hs = length rs -> dict_keys (combine hs rs) = hs.
Proof.
  revert rs. induction hs as [| h hs IH]; intros [| r rs] Hlen;
    try discriminate; [reflexivity |].
  cbn. f_equal. apply IH. cbn in Hlen. lia.
Qed.

Lemma values_of_combine (hs rs : list string) :
  length hs = length rs -> dict_values (combine hs rs) = rs.
Proof.
  revert rs. induction hs as [| h hs IH]; intros [| r rs] Hlen;
    try discriminate; [reflexivity |].
  cbn. f_equal. apply IH. cbn in Hlen. lia.
Qed.

Lemma filter_has_width (n : nat) (rows : list (list string)) :
  Forall (fun row => length row = n) (List.filter (has_width n) rows).
Proof.
  apply List.Forall_forall. intros row Hin.
  apply List.filter_In in Hin as [_ Hw]. apply Nat.eqb_eq. exact Hw.
Qed.

(** ** The loop of the info inspector *)

(** The enumeration keeps the first ten records when the reader yields at
    least eleven items, or all of them when it ends normally before. *)
Lemma enumerate_loop_take (items : list (list string)) (err : option exn) :
  forall (i : nat) (rows : list (list string)),
    (i <= 10)%nat ->
    ((length items <= 10 - i)%nat -> err = None) ->
    enumerate_loop i items err rows = inr (rows ++ firstn (10 - i) items).
Proof.
  induction items as [| row rest IH]; intros i rows Hi Herr.
  - cbn. rewrite Herr by (cbn; lia). rewrite firstn_nil, app_nil_r. reflexivity.
  - cbn [enumerate_loop]. destruct (Nat.leb_spec 10 i) as [Hge | Hlt].
    + replace (10 - i)%nat with 0%nat by lia. cbn. rewrite app_nil_r. reflexivity.
    + rewrite IH.
      * replace (10 - i)%nat with (S (10 - S i)) by lia.
        cbn [firstn]. rewrite <- app_assoc. reflexivity.
      * lia.
      * intros Hlen. apply Herr. cbn [length]. lia.
Qed.

Section Properties.
Context `{Platform}.

(** C3. The table reader drops the first [skip_rows] records of what the CSV
    reader yields; when nothing is left it returns an empty header and no
    rows; otherwise with [header] the first remaining record is the header
    and the rest are the rows, and without [header] the header is
    [column_0 .. column_{n-1}] for the width [n] of the first remaining record
    and all remaining records are rows. *)
Theorem table_reader_skip_then_header
    (records : list (list string)) (options : CSVConversionOptions) (w : world) :
  _process_csv_reader (records, None) options w =
  (inr (match skipn (Z.to_nat (skip_rows options)) records with
        | [] => ([], [])
        | first :: rest =>
            if header options then (first, rest)
            else (map (fun i => "column_" +:+ str_of_nat i)
                      (seq 0 (length first)),
                  first :: rest)
        end),
   World (fs w) (log w ++ [EvReadRecords])).
Proof.
  unfold _process_csv_reader, list_of_reader. unfold_monad. cbn.
  rewrite skip_rows_drop.
  destruct (skipn (Z.to_nat (skip_rows options)) records) as [| first rest].
  - reflexivity.
  - destruct (header options); reflexivity.
Qed.


(** ** What a successful call leaves behind *)

Lemma lift_inr {A} (r : exn + A) w a w' :
  lift r w = (inr a, w') -> r = inr a /\ w' = w.
Proof.
  destruct r as [e | a0]; cbn; intros Heq; [discriminate |].
  injection Heq as Ha Hw. subst. split; reflexivity.
Qed.

Lemma open_read_inr (path encoding : string) w f w' :
  open_read path encoding w = (inr f, w') ->
  w' = World (fs w) (log w ++ [EvOpenRead path encoding]).
Proof.
  unfold open_read, bind, emit, get_fs, raise, ret. cbn.
  destruct (fs w !! path) as [[content | size] |]; try discriminate.
  destruct (os_open_error false path); [discriminate |].
  destruct (codec_known encoding); [| discriminate].
  intros Heq. injection Heq as _ Hw. symmetry. exact Hw.
Qed.

Lemma csv_reader_inr (f : text_file) (delimiter : string) w r w' :
  csv_reader f delimiter w = (inr r, w') -> w' = w.
Proof.
  unfold csv_reader, raise, ret.
  destruct (csv_dialect_error delimiter); [discriminate |].
  intros Heq. injection Heq as _ Hw. symmetry. exact Hw.
Qed.

(** The table reader makes one call, whatever it returns. *)
Lemma process_csv_reader_world (r : reader) (options : CSVConversionOptions) w :
  snd (_process_csv_reader r options w)
  = World (fs w) (log w ++ [EvReadRecords]).
Proof.
  unfold _process_csv_reader, list_of_reader. unfold_monad.
  destruct r as [records [e |]]; cbn; [reflexivity |].
  destruct (if skip_rows options >? 0
            then slice_from records (skip_rows options) else records);
    [reflexivity |].
  destruct (header options); reflexivity.
Qed.

Lemma process_csv_reader_inr (r : reader) (options : CSVConversionOptions)
    w table w' :
  _process_csv_reader r options w = (inr table, w') ->
  w' = World (fs w) (log w ++ [EvReadRecords]).
Proof.
  intros Hrun. rewrite <- (process_csv_reader_world r options w), Hrun.
  reflexivity.
Qed.

Lemma read_csv_data_path_inr (path : string) (options : CSVConversionOptions)
    w table w' :
  _read_csv_data (SrcPath path) options w = (inr table, w') ->
  w' = World (fs w)
             (log w ++ [EvOpenRead path (encoding options); EvReadRecords]).
Proof.
  unfold _read_csv_data. intros Hrun.
  apply bind_inr in Hrun as (f & w1 & Hopen & Hrun).
  apply bind_inr in Hrun as (r & w2 & Hreader & Hrun).
  apply open_read_inr in Hopen. apply csv_reader_inr in Hreader.
  apply process_csv_reader_inr in Hrun. subst w' w2 w1. cbn [fs log].
  rewrite <- app_assoc. reflexivity.
Qed.

Lemma read_csv_data_string_inr (content : string)
    (options : CSVConversionOptions) w table w' :
  _read_csv_data (SrcStringIO content) options w = (inr table, w') ->
  w' = World (fs w) (log w ++ [EvReadRecords]).
Proof.
  unfold _read_csv_data. intros Hrun.
  apply bind_inr in Hrun as (r & w2 & Hreader & Hrun).
  apply csv_reader_inr in Hreader. apply process_csv_reader_inr in Hrun.
  subst w' w2. reflexivity.
Qed.

Lemma open_write_inr (path encoding : string) w u w' :
  open_write path encoding w = (inr u, w') ->
  w' = World (<[path := File []]> (fs w)) (log w ++ [EvOpenWrite path encoding]).
Proof.
  unfold open_write, bind, emit, get_fs, put_node, raise, ret. cbn.
  destruct (fs w !! path) as [[content | size] |]; try discriminate;
    destruct (os_open_error true path); try discriminate;
    destruct (codec_known encoding); try discriminate;
    intros Heq; injection Heq as _ Hw; symmetry; exact Hw.
Qed.

Lemma file_write_inr (path encoding data : string) w u w' :
  file_write path encoding data w = (inr u, w') ->
  exists content,
    codec_encode encoding data = inr content
    /\ w' = World (<[path := File content]> (fs w)) (log w ++ [EvWrite path data]).
Proof.
  unfold file_write, bind, emit, put_node, raise. cbn.
  destruct (codec_encode encoding data) as [e | content]; [discriminate |].
  intros Heq. injection Heq as _ Hw. exists content.
  split; [reflexivity | symmetry; exact Hw].
Qed.

Lemma bind_step {A B} (m : M A) (k : A -> M B) w a w1 :
  m w = (inr a, w1) -> bind m k w = k a w1.
Proof. intros Hm. unfold bind. rewrite Hm. reflexivity. Qed.

Lemma bind_raise {A B} (m : M A) (k : A -> M B) w e w1 :
  m w = (inl e, w1) -> bind m k w = (inl e, w1).
Proof. intros Hm. unfold bind. rewrite Hm. reflexivity. Qed.

(** The existence test makes one call and leaves the file system alone;
    it raises only on a path that [stat] does not reach. *)
Lemma path_exists_run (path : string) (w : world) :
  path_exists path w
  = (match fs w !! path with
     | Some _ => inr true
     | None =>
         match os_stat_error path with
         | Some e => inl e
         | None => inr false
         end
     end,
     World (fs w) (log w ++ [EvExists path])).
Proof.
  unfold path_exists, bind, emit, get_fs, raise, ret. cbn.
  destruct (fs w !! path); [reflexivity |].
  destruct (os_stat_error path); reflexivity.
Qed.

Lemma path_exists_inr (path : string) w found w' :
  path_exists path w = (inr found, w') ->
  w' = World (fs w) (log w ++ [EvExists path])
  /\ (if found then is_Some (fs w !! path) else fs w !! path = None).
Proof.
  rewrite path_exists_run. intros Heq. injection Heq as Hfound Hw.
  split; [symmetry; exact Hw |].
  destruct (fs w !! path) as [n |].
  - injection Hfound as <-. eexists. reflexivity.
  - destruct (os_stat_error path); [discriminate |].
    injection Hfound as <-. reflexivity.
Qed.

Lemma path_exists_found (path : string) (n : node) w :
  fs w !! path = Some n ->
  path_exists path w = (inr true, World (fs w) (log w ++ [EvExists path])).
Proof. intros Hn. rewrite path_exists_run, Hn. reflexivity. Qed.

Lemma path_exists_missing (path : string) w :
  fs w !! path = None ->
  os_stat_error path = None ->
  path_exists path w = (inr false, World (fs w) (log w ++ [EvExists path])).
Proof. intros Hn Hstat. rewrite path_exists_run, Hn, Hstat. reflexivity. Qed.

Lemma path_exists_fails (path : string) (e : exn) w :
  fs w !! path = None ->
  os_stat_error path = Some e ->
  path_exists path w = (inl e, World (fs w) (log w ++ [EvExists path])).
Proof. intros Hn Hstat. rewrite path_exists_run, Hn, Hstat. reflexivity. Qed.

Lemma stat_size_file (path : string) (content : list Byte.byte) w :
  fs w !! path = Some (File content) ->
  stat_size path w
  = (inr (Z.of_nat (length content)), World (fs w) (log w ++ [EvStat path])).
Proof.
  intros Hn. unfold stat_size, bind, emit, get_fs, ret. cbn.
  rewrite Hn. reflexivity.
Qed.

Lemma open_read_file (path encoding : string) (content : list Byte.byte) w :
  fs w !! path = Some (File content) ->
  os_open_error false path = None ->
  codec_known encoding = true ->
  open_read path encoding w
  = (inr (match codec_decode encoding content with
          | inr text => (file_lines text, None)
          | inl e => (text_lines_before_error encoding content, Some e)
          end),
     World (fs w) (log w ++ [EvOpenRead path encoding])).
Proof.
  intros Hn Hopen Hknown. unfold open_read, bind, emit, get_fs, ret. cbn.
  rewrite Hn, Hopen, Hknown. reflexivity.
Qed.

(** ** Missing sources and unsupported shapes *)


Lemma unsupported_shape_raises (headers : list string)
    (data_rows : list (list string)) (options : CSVConversionOptions) :
  str_in (orient options) supported_formats = false ->
  _convert_to_json_format headers data_rows options
  = inl (Exn ValueError ("不支持的 JSON 格式: " +:+ orient options)).
Proof.
  unfold str_in, supported_formats. cbn [existsb]. intros Hbad.
  apply orb_false_iff in Hbad as [Hrecords Hbad].
  apply orb_false_iff in Hbad as [Hvalues Hbad].
  apply orb_false_iff in Hbad as [Hsplit _].
  unfold _convert_to_json_format, shape.
  rewrite Hrecords, Hvalues, Hsplit. reflexivity.
Qed.

(** C1, amended. When the shape selector is not one of the supported ones,
    no entry point returns a result. The two file entry points fail right
    after the existence test of the source path, which is their only call:
    the source is not opened or read, and nothing is written; when the test
    finds the path, the exception is the ValueError of an unsupported
    shape. The string entry point raises a ValueError. *)
Theorem unsupported_orient_rejected
    (csv_file_path csv_content : string) (output_file_path : option string)
    (options : CSVConversionOptions) (w : world) :
  str_in (orient options) supported_formats = false ->
  (exists e : exn,
     convert_csv_to_json csv_file_path (Some options) w =
     (inl e, World (fs w) (log w ++ [EvExists (Path csv_file_path)])))
  /\ (exists e : exn,
        convert_csv_to_json_file csv_file_path output_file_path (Some options) w =
        (inl e, World (fs w) (log w ++ [EvExists (Path csv_file_path)])))
  /\ (exists message w',
        convert_csv_string_to_json csv_content (Some options) w
        = (inl (Exn ValueError message), w'))
  /\ (is_Some (fs w !! Path csv_file_path) ->
      convert_csv_to_json csv_file_path (Some options) w =
        (inl (Exn ValueError ("不支持的 JSON 格式: " +:+ orient options)),
         World (fs w) (log w ++ [EvExists (Path csv_file_path)]))
      /\ convert_csv_to_json_file csv_file_path output_file_path (Some options) w =
        (inl (Exn ValueError ("不支持的 JSON 格式: " +:+ orient options)),
         World (fs w) (log w ++ [EvExists (Path csv_file_path)]))).
Proof.
  intros Hbad.
  assert (Hfound : forall n, fs w !! Path csv_file_path = Some n ->
            convert_csv_to_json csv_file_path (Some options) w =
              (inl (Exn ValueError ("不支持的 JSON 格式: " +:+ orient options)),
               World (fs w) (log w ++ [EvExists (Path csv_file_path)]))
            /\ convert_csv_to_json_file csv_file_path output_file_path
                 (Some options) w =
              (inl (Exn ValueError ("不支持的 JSON 格式: " +:+ orient options)),
               World (fs w) (log w ++ [EvExists (Path csv_file_path)]))).
  { intros n Hn. split.
    - unfold convert_csv_to_json.
      rewrite (bind_step _ _ _ _ _ (path_exists_found _ _ _ Hn)).
      cbn [negb options_or_default]. rewrite Hbad. reflexivity.
    - unfold convert_csv_to_json_file.
      rewrite (bind_step _ _ _ _ _ (path_exists_found _ _ _ Hn)).
      cbn [negb options_or_default]. rewrite Hbad. reflexivity. }
  assert (Hfiles :
            (exists e : exn,
               convert_csv_to_json csv_file_path (Some options) w =
               (inl e, World (fs w) (log w ++ [EvExists (Path csv_file_path)])))
            /\ (exists e : exn,
                  convert_csv_to_json_file csv_file_path output_file_path
                    (Some options) w =
                  (inl e, World (fs w) (log w ++ [EvExists (Path csv_file_path)])))).
  { destruct (fs w !! Path csv_file_path) as [n |] eqn:Hn.
    - destruct (Hfound n eq_refl) as [Hto_string Hto_file].
      split; eexists; eassumption.
    - destruct (os_stat_error (Path csv_file_path)) as [e |] eqn:Hstat.
      + split; exists e.
        * unfold convert_csv_to_json.
          apply bind_raise, path_exists_fails; assumption.
        * unfold convert_csv_to_json_file.
          apply bind_raise, path_exists_fails; assumption.
      + split; eexists.
        * unfold convert_csv_to_json.
          rewrite (bind_step _ _ _ _ _ (path_exists_missing _ _ Hn Hstat)).
          reflexivity.
        * unfold convert_csv_to_json_file.
          rewrite (bind_step _ _ _ _ _ (path_exists_missing _ _ Hn Hstat)).
          reflexivity. }
  destruct Hfiles as [Hto_string Hto_file].
  split; [exact Hto_string |]. split; [exact Hto_file |]. split.
  - unfold convert_csv_string_to_json, try_except, bind.
    cbn [options_or_default].
    destruct (_read_csv_data (SrcStringIO csv_content) options w)
      as [[e | [headers data_rows]] w1].
    + destruct (isinstance e csv_Error); eexists _, _; reflexivity.
    + rewrite unsupported_shape_raises by exact Hbad. cbn.
      eexists _, _. reflexivity.
  - intros [n Hn]. exact (Hfound n Hn).
Qed.

(** ** The shapes that do not filter *)

(** C5. With ['values'] the result is the list of rows itself: one inner
    array per data row, in order, holding the row's fields in order. With
    ['split'] it is the object whose ["columns"] is the header and whose
    ["data"] is that same list of rows. No row is dropped in either shape,
    and the text returned is the serialization of that result. *)
Theorem values_and_split_keep_all_rows
    (headers : list string) (data_rows : list (list string))
    (options : CSVConversionOptions) :
  (orient options = "values" ->
     shape headers data_rows options
       = inr (JList (map (fun row => JList (map JStr row)) data_rows))
     /\ _convert_to_json_format headers data_rows options
       = inr (dumps (JList (map (fun row => JList (map JStr row)) data_rows))
                    (indent options)))
  /\ (orient options = "split" ->
     shape headers data_rows options
       = inr (JDict [("columns", JList (map JStr headers));
                     ("data", JList (map (fun row => JList (map JStr row))
                                         data_rows))])
     /\ _convert_to_json_format headers data_rows options
       = inr (dumps (JDict [("columns", JList (map JStr headers));
                            ("data", JList (map (fun row => JList (map JStr row))
                                                data_rows))])
                    (indent options))).
Proof.
  split; intros Horient; unfold _convert_to_json_format, shape;
    rewrite Horient; split; reflexivity.
Qed.

(** The rows can be read back from the ['values'] result: the embedding of
    rows into JSON values loses nothing. *)
Lemma json_of_rows_inj (rows rows' : list (list string)) :
  json_of_rows rows = json_of_rows rows' -> rows = rows'.
Proof.
  unfold json_of_rows, json_of_strs. intros Heq. injection Heq as Heq.
  revert rows' Heq. induction rows as [| r rows IH]; intros [| r' rows'] Heq;
    try discriminate; [reflexivity |].
  cbn in Heq. injection Heq as Hr Hrows. f_equal; [| apply IH; exact Hrows].
  clear -Hr. revert r' Hr. induction r as [| x r IHr]; intros [| x' r'] Hr;
    try discriminate; [reflexivity |].
  cbn in Hr. injection Hr as Hx Hr. subst x'. f_equal. apply IHr. exact Hr.
Qed.

(** ** Negative [skip_rows] *)




(** ** The remote tools *)

(** C4. Neither tool raises: whatever the converter does, the tool returns a
    dict. When the converter returns, the dict is
    [{success: True, <payload>, message}]; when the converter raises [e],
    it is [{success: False, error: str(e), message}] for one of the
    category messages. The effects are those of the converter. *)
Theorem remote_tools_never_raise
    (file_path csv_content : string) (output_file_path : option string)
    (delimiter encoding : string) (skip_rows : Z) (header : bool)
    (orient : string) (indent : option Z) (w : world) :
  match convert_csv_to_json_file file_path output_file_path
          (Some {| delimiter := delimiter; encoding := encoding;
                   skip_rows := skip_rows; header := header;
                   orient := orient; indent := indent |}) w with
  | (inr json_file_path, w') =>
      convert_csv_file file_path output_file_path delimiter encoding
        skip_rows header orient indent w
      = (inr [("success", PyBool true);
              ("json_file_path", PyStr json_file_path);
              ("message", PyStr "CSV 文件转换成功，JSON 文件已生成")], w')
  | (inl e, w') =>
      exists message,
      convert_csv_file file_path output_file_path delimiter encoding
        skip_rows header orient indent w
      = (inr [("success", PyBool false);
              ("error", PyStr (str_of_exn e));
              ("message", PyStr message)], w')
  end
  /\
  match convert_csv_string_to_json csv_content
          (Some {| delimiter := delimiter; encoding := "utf-8";
                   skip_rows := skip_rows; header := header;
                   orient := orient; indent := indent |}) w with
  | (inr json_result, w') =>
      convert_csv_string csv_content delimiter skip_rows header orient indent w
      = (inr [("success", PyBool true);
              ("json", PyStr json_result);
              ("message", PyStr "CSV 字符串转换成功")], w')
  | (inl e, w') =>
      exists message,
      convert_csv_string csv_content delimiter skip_rows header orient indent w
      = (inr [("success", PyBool false);
              ("error", PyStr (str_of_exn e));
              ("message", PyStr message)], w')
  end.
Proof.
  split.
  - unfold convert_csv_file, try_except, bind.
    destruct (convert_csv_to_json_file _ _ _ w) as [[e | p] w'].
    + destruct (isinstance e FileNotFoundError); [eexists; reflexivity |].
      destruct (isinstance e ValueError); eexists; reflexivity.
    + reflexivity.
  - unfold convert_csv_string, try_except, bind.
    destruct (convert_csv_string_to_json _ _ w) as [[e | j] w'].
    + destruct (isinstance e ValueError); eexists; reflexivity.
    + reflexivity.
Qed.

(** ** The output file *)

(** C10. When the file-to-file entry point returns, the text it wrote is the
    converter's JSON text encoded with the UTF-8 codec, whatever [encoding]
    the options name: that option only reaches the [open] of the source. The
    log shows the five calls made, and the file system differs from the
    initial one at the output path only. *)
Theorem output_file_is_utf8
    (csv_file_path : string) (output_file_path : option string)
    (options : option CSVConversionOptions) (w w' : world) (written : string) :
  convert_csv_to_json_file csv_file_path output_file_path options w
    = (inr written, w') ->
  exists headers data_rows json_data content,
    _convert_to_json_format headers data_rows (options_or_default options)
      = inr json_data
    /\ codec_encode "utf-8" json_data = inr content
    /\ fs w' = <[written := File content]> (fs w)
    /\ log w' = log w ++ [EvExists (Path csv_file_path);
                          EvOpenRead (Path csv_file_path)
                                     (encoding (options_or_default options));
                          EvReadRecords;
                          EvOpenWrite written "utf-8";
                          EvWrite written json_data].
Proof.
  intros Hrun. unfold convert_csv_to_json_file in Hrun.
  apply bind_inr in Hrun as (found & w1 & Hexists & Hrun).
  apply path_exists_inr in Hexists as [-> _].
  destruct (negb found); [discriminate |].
  destruct (negb (str_in _ supported_formats)); [discriminate |].
  set (o := options_or_default options) in *.
  apply bind_inr in Hrun as (out & w2 & Hout & Hrun).
  assert (Hw2 : w2 = World (fs w) (log w ++ [EvExists (Path csv_file_path)])).
  { destruct output_file_path as [p |]; cbn in Hout.
    - injection Hout as _ Hw. symmetry. exact Hw.
    - destruct (with_suffix (Path csv_file_path) ".json"); cbn in Hout;
        [discriminate |]. injection Hout as _ Hw. symmetry. exact Hw. }
  subst w2. clear Hout.
  apply try_except_inr in Hrun as Hbody.
  2: { intros e w3. destruct (isinstance e csv_Error); [eexists; reflexivity |].
       destruct (isinstance e UnicodeDecodeError); eexists; reflexivity. }
  clear Hrun.
  apply bind_inr in Hbody as ([headers data_rows] & w3 & Hread & Hbody).
  apply bind_inr in Hbody as (json_data & w4 & Hjson & Hbody).
  apply bind_inr in Hbody as (u & w5 & Hopen & Hbody).
  apply bind_inr in Hbody as (u' & w6 & Hwrite & Hbody).
  injection Hbody as Hwritten Hw'. subst out w6.
  apply read_csv_data_path_inr in Hread. apply lift_inr in Hjson as [Hjson Hw4].
  apply open_write_inr in Hopen.
  apply file_write_inr in Hwrite as (content & Hencode & Hw').
  subst w' w5 w4 w3. cbn [fs log].
  exists headers, data_rows, json_data, content.
  split; [exact Hjson |]. split; [exact Hencode |].
  split; [apply insert_insert_eq | rewrite <- !app_assoc; reflexivity].
Qed.

(** ** The ['records'] shape *)

(** C2, amended. When the header entries are pairwise distinct, the
    ['records'] output holds exactly the rows whose field count is the
    header's length, in input order; each is one object whose keys are the
    header entries in order and whose values are the fields of the row. Rows
    of another length are passed over and no error is raised. *)
Theorem records_keep_rows_of_header_width
    (headers : list string) (data_rows : list (list string))
    (options : CSVConversionOptions) :
  List.NoDup headers ->
  orient options = "records" ->
  let kept := List.filter (has_width (length headers)) data_rows in
  exists result : list dict,
    records_loop headers data_rows [] = inr result
    /\ _convert_to_json_format headers data_rows options
        = inr (dumps (JList (map json_of_dict result)) (indent options))
    /\ result = map (combine headers) kept
    /\ map dict_keys result = map (fun _ => headers) kept
    /\ map dict_values result = kept.
Proof.
  intros Hnodup Horient kept.
  assert (Hresult : map (record_of headers) kept = map (combine headers) kept).
  { apply map_ext_in. intros row Hin. apply record_of_distinct; [exact Hnodup |].
    pose proof (filter_has_width (length headers) data_rows) as Hw.
    rewrite List.Forall_forall in Hw. apply Hw. exact Hin. }
  assert (Hwidth : Forall (fun row => length row = length headers) kept)
    by apply filter_has_width.
  exists (map (combine headers) kept).
  split; [rewrite records_loop_filter; cbn; f_equal; exact Hresult |].
  split.
  { unfold _convert_to_json_format, shape. rewrite Horient. cbn.
    rewrite records_loop_filter. cbn. fold kept. rewrite Hresult. reflexivity. }
  split; [reflexivity |].
  rewrite !map_map. split.
  - apply map_ext_in. intros row Hin. rewrite List.Forall_forall in Hwidth.
    apply keys_of_combine. symmetry. apply (Hwidth row Hin).
  - rewrite <- (map_id kept) at 2. apply map_ext_in. intros row Hin.
    rewrite List.Forall_forall in Hwidth.
    apply values_of_combine. symmetry. apply (Hwidth row Hin).
Qed.

(** ** The info inspector *)

(** C7, amended. For an existing file that decodes as UTF-8 and whose reader
    does not fail within its first eleven items, the inspector returns: the
    size in bytes; the fixed encoding ['utf-8'] and delimiter [',']; the
    column count, which is the length of the header; and, from the first ten
    records only,
    - when there is no record: row count 0, no header, no sample, and the
      file is not read again;
    - otherwise: the row count is the line count of the whole file, read a
      second time, minus one when that count exceeds one and the count
      itself when it is 0 or 1; the header is the first record when it has
      more than one field, and [column_0 .. column_{n-1}] for its width [n]
      otherwise; the sample is the ['records'] rendering of the three records
      that follow the first, so it has at most three objects. *)
Theorem info_inspector_report
    (csv_file_path : string) (w : world) (content : list Byte.byte)
    (text : string) (records : list (list string)) (err : option exn) :
  fs w !! Path csv_file_path = Some (File content) ->
  os_open_error false (Path csv_file_path) = None ->
  codec_known "utf-8" = true ->
  codec_decode "utf-8" content = inr text ->
  csv_records "," (file_lines text) = (records, err) ->
  ((length records <= 10)%nat -> err = None) ->
  let rows := firstn 10 records in
  let line_count := Z.of_nat (length (file_lines text)) in
  let inspected := [EvExists (Path csv_file_path); EvStat (Path csv_file_path);
                    EvOpenRead (Path csv_file_path) "utf-8"; EvReadRecords] in
  exists (info : csv_info) (w' : world),
    get_csv_info csv_file_path w = (inr info, w')
    /\ fs w' = fs w
    /\ file_size info = Z.of_nat (length content)
    /\ file_encoding info = "utf-8"
    /\ detected_delimiter info = ","
    /\ column_count info = length (columns info)
    /\ match rows with
       | [] =>
           row_count info = 0 /\ columns info = [] /\ sample_data info = []
           /\ log w' = log w ++ inspected
       | first :: others =>
           row_count info = (if line_count >? 1 then line_count - 1
                             else line_count)
           /\ columns info =
               (if (1 <? length first)%nat then first
                else map (fun i => "column_" +:+ str_of_nat i)
                         (seq 0 (length first)))
           /\ records_loop (columns info) (firstn 3 others) []
               = inr (sample_data info)
           /\ (length (sample_data info) <= 3)%nat
           /\ log w' = log w ++ inspected
                        ++ [EvOpenRead (Path csv_file_path) "utf-8"]
       end.
Proof.
  intros Hfile Hopen Hknown Hdecode Hrecords Herr rows line_count inspected.
  assert (Hloop : enumerate_loop 0 records err [] = inr rows).
  { rewrite enumerate_loop_take; [reflexivity | lia | exact Herr]. }
  assert (Hslice : forall (first : list string) (others : list (list string)),
             (if (1 <? length (first :: others))%nat
              then slice (first :: others) 1 4 else [])
             = firstn 3 others).
  { intros first [| r others']; reflexivity. }
  unfold get_csv_info.
  rewrite (bind_step _ _ _ _ _ (path_exists_found _ _ _ Hfile)).
  cbn [negb]. unfold try_except.
  erewrite bind_step by (apply stat_size_file; exact Hfile).
  erewrite bind_step
    by (apply open_read_file; [exact Hfile | exact Hopen | exact Hknown]).
  rewrite Hdecode. unfold records_of_file. cbn [fst snd].
  rewrite Hrecords. cbn [fst snd].
  erewrite bind_step by reflexivity.
  rewrite Hloop. erewrite bind_step by reflexivity.
  destruct rows as [| first others] eqn:Hrows.
  - eexists _, _. split; [reflexivity |]. cbn.
    repeat (split; [reflexivity |]).
    rewrite <- !app_assoc. reflexivity.
  - erewrite bind_step
      by (apply open_read_file; [exact Hfile | exact Hopen | exact Hknown]).
    rewrite Hdecode. unfold count_lines. cbn [fst snd].
    erewrite bind_step by reflexivity.
    rewrite Hslice, records_loop_filter.
    erewrite bind_step by reflexivity.
    eexists _, _. split; [reflexivity |].
    cbn [file_size row_count column_count columns sample_data file_encoding
         detected_delimiter fs log].
    do 3 (split; [reflexivity |]).
    split; [destruct (1 <? length first)%nat; reflexivity |].
    do 3 (split; [reflexivity |]).
    split; [rewrite records_loop_filter; reflexivity |].
    split.
    + cbn [app]. rewrite length_map.
      etransitivity; [apply List.filter_length_le |].
      rewrite length_firstn. lia.
    + rewrite <- !app_assoc. reflexivity.
Qed.

End Properties.

(** ** The ['values'] round trip *)

(** C8. The text of the ['values'] shape can be read back as a list of rows,
    and serializing those rows again with the same options gives the same
    text. *)
Theorem values_text_roundtrip
    (headers : list string) (data_rows : list (list string))
    (options : CSVConversionOptions) :
  orient options = "values" ->
  exists (text : string) (rows_back : list (list string)),
    _convert_to_json_format headers data_rows options = inr text
    /\ Loads.loads_rows text = Some rows_back
    /\ _convert_to_json_format headers rows_back options = inr text.
Proof.
  intros Horient.
  exists (dumps (json_of_rows data_rows) (indent options)), data_rows.
  assert (Htext : _convert_to_json_format headers data_rows options
                  = inr (dumps (json_of_rows data_rows) (indent options))).
  { unfold _convert_to_json_format, shape. rewrite Horient. reflexivity. }
  split; [exact Htext |]. split; [apply LoadsDumps.loads_dumps_rows | exact Htext].
Qed.

(** * Examples, witnesses and counterexamples on the executable platform *)

(** The example of the specification: every value stays a string. *)
Example people_records :
  _read_csv_data (H := cpython) (SrcStringIO people_csv) default_options
    (World ∅ [])
  = (inr (["name"; "age"], [["Alice"; "25"]; ["Bob"; "30"]]),
     World ∅ [EvReadRecords])
  /\ shape ["name"; "age"] [["Alice"; "25"]; ["Bob"; "30"]] default_options
     = inr (JList [JDict [("name", JStr "Alice"); ("age", JStr "25")];
                   JDict [("name", JStr "Bob"); ("age", JStr "30")]]).
Proof. split; reflexivity. Qed.

(** [skip_rows=2, header=true] on five lines: three records are kept, the
    first is the header and the other two are the rows. *)
Example skip_two_of_five :
  fst (_read_csv_data (H := cpython) (SrcStringIO preamble_csv)
         (with_skip_rows 2 default_options) (World ∅ []))
  = inr (["id"; "city"], [["1"; "Oslo"]; ["2"; "Rome"]]).
Proof. reflexivity. Qed.

(** [header=false] on rows of width 3. *)
Example synthesized_header :
  fst (_read_csv_data (H := cpython) (SrcStringIO "a,b,c") no_header_options
         (World ∅ []))
  = inr (["column_0"; "column_1"; "column_2"], [["a"; "b"; "c"]]).
Proof. reflexivity. Qed.

(** C1, counterexample. With the unsupported shape ["pivot"]: on a missing
    path the file entry point raises [FileNotFoundError], not the error of the
    shape; and the string entry point consumes its source before it looks at
    the shape, so that a malformed text is reported as a parse error. *)
Lemma unsupported_orient_counterexample :
  convert_csv_to_json (H := cpython) "missing.csv" (Some pivot_options)
    (World ∅ [])
  = (inl (Exn FileNotFoundError "CSV 文件不存在: missing.csv"),
     World ∅ [EvExists "missing.csv"])
  /\ convert_csv_string_to_json (H := cpython) people_csv (Some pivot_options)
       (World ∅ [])
     = (inl (Exn ValueError "转换失败: 不支持的 JSON 格式: pivot"),
        World ∅ [EvReadRecords])
  /\ exists parse_error,
       convert_csv_string_to_json (H := cpython) ("a" +:+ chr Chr.CR +:+ "b")
         (Some pivot_options) (World ∅ [])
       = (inl (Exn ValueError ("CSV 内容解析错误: " +:+ parse_error)),
          World ∅ [EvReadRecords]).
Proof. split; [| split]; [reflexivity | reflexivity | eexists; reflexivity]. Qed.

(** C1, witness: on a source that exists, and on a world with no file. *)
Lemma unsupported_orient_rejected_witness :
  (convert_csv_to_json (H := cpython) "people.csv" (Some pivot_options)
     people_world
   = (inl (Exn ValueError "不支持的 JSON 格式: pivot"),
      World (fs people_world) [EvExists "people.csv"])
   /\ convert_csv_to_json_file (H := cpython) "people.csv" None
        (Some pivot_options) people_world
      = (inl (Exn ValueError "不支持的 JSON 格式: pivot"),
         World (fs people_world) [EvExists "people.csv"]))
  /\ (exists e : exn,
        convert_csv_to_json (H := cpython) "missing.csv" (Some pivot_options)
          (World ∅ [])
        = (inl e, World ∅ [EvExists "missing.csv"]))
  /\ (exists e : exn,
        convert_csv_to_json_file (H := cpython) "missing.csv" None
          (Some pivot_options) (World ∅ [])
        = (inl e, World ∅ [EvExists "missing.csv"]))
  /\ (exists message w',
        convert_csv_string_to_json (H := cpython) people_csv
          (Some pivot_options) (World ∅ [])
        = (inl (Exn ValueError message), w')).
Proof.
  split.
  - apply (unsupported_orient_rejected (H := cpython) "people.csv" people_csv
             None pivot_options people_world).
    + reflexivity.
    + eexists. vm_compute. reflexivity.
  - destruct (unsupported_orient_rejected (H := cpython) "missing.csv"
                people_csv None pivot_options (World ∅ []) eq_refl)
      as (Hto_string & Hto_file & Hstring & _).
    split; [exact Hto_string |]. split; [exact Hto_file | exact Hstring].
Defined.

(** C2, counterexample. With the header [a, a] the row [1, 2] becomes an
    object with the single key [a] and the single value [2]: its keys are not
    the header entries and its values are not the fields of the row. *)
Lemma records_duplicate_header_counterexample :
  records_loop ["a"; "a"] [["1"; "2"]] [] = inr [[("a", "2")]]
  /\ shape ["a"; "a"] [["1"; "2"]] default_options
     = inr (JList [JDict [("a", JStr "2")]])
  /\ dict_keys [("a", "2")] <> ["a"; "a"]
  /\ dict_values [("a", "2")] <> ["1"; "2"].
Proof. repeat split; try reflexivity; discriminate. Qed.

(** C2, witness. *)
Lemma records_keep_rows_of_header_width_witness :
  exists result : list dict,
    records_loop ["name"; "age"] [["Alice"; "25"]; ["Bob"]; ["Eve"; "41"]] []
      = inr result
    /\ _convert_to_json_format ["name"; "age"]
         [["Alice"; "25"]; ["Bob"]; ["Eve"; "41"]] default_options
        = inr (dumps (JList (map json_of_dict result)) None)
    /\ result = map (combine ["name"; "age"]) [["Alice"; "25"]; ["Eve"; "41"]]
    /\ map dict_keys result = [["name"; "age"]; ["name"; "age"]]
    /\ map dict_values result = [["Alice"; "25"]; ["Eve"; "41"]].
Proof.
  apply (records_keep_rows_of_header_width ["name"; "age"]
           [["Alice"; "25"]; ["Bob"]; ["Eve"; "41"]] default_options).
  - repeat constructor; cbn; intuition discriminate.
  - reflexivity.
Defined.

(** C5, witness. *)
Lemma values_and_split_keep_all_rows_witness :
  shape ["h"] [["1"; "2"]; []] (with_orient "values" default_options)
    = inr (JList [JList [JStr "1"; JStr "2"]; JList []])
  /\ shape ["h"] [["1"; "2"]; []] (with_orient "split" default_options)
    = inr (JDict [("columns", JList [JStr "h"]);
                  ("data", JList [JList [JStr "1"; JStr "2"]; JList []])]).
Proof.
  split.
  - apply (proj1 (values_and_split_keep_all_rows ["h"] [["1"; "2"]; []]
                    (with_orient "values" default_options))).
    reflexivity.
  - apply (proj2 (values_and_split_keep_all_rows ["h"] [["1"; "2"]; []]
                    (with_orient "split" default_options))).
    reflexivity.
Defined.



(** C7, counterexample. A file of one line, [a,b], has a line count of 1 and
    is reported with a row count of 1, not 0. A file with a single column has
    its first record [x] counted as a header but reported as [column_0], and
    a file that is not UTF-8 makes the inspector raise. *)
Lemma info_inspector_counterexample :
  fst (get_csv_info (H := cpython) "one.csv" (world_of_files [("one.csv", "a,b")]))
  = inr {| file_size := 3; row_count := 1; column_count := 2;
           columns := ["a"; "b"]; sample_data := [];
           file_encoding := "utf-8"; detected_delimiter := "," |}
  /\ Z.of_nat (length (file_lines "a,b")) - 1 = 0
  /\ fst (get_csv_info (H := cpython) "col.csv"
            (world_of_files [("col.csv", "x" +:+ newline +:+ "1" +:+ newline)]))
     = inr {| file_size := 4; row_count := 1; column_count := 1;
              columns := ["column_0"]; sample_data := [[("column_0", "1")]];
              file_encoding := "utf-8"; detected_delimiter := "," |}
  /\ exists decode_error,
       fst (get_csv_info (H := cpython) "latin.csv"
              (World {[ "latin.csv" := File [Byte.xe9] ]} []))
       = inl (Exn ValueError ("获取 CSV 文件信息失败: " +:+ decode_error)).
Proof.
  split; [vm_compute; reflexivity |]. split; [vm_compute; reflexivity |].
  split; [vm_compute; reflexivity |]. eexists. vm_compute. reflexivity.
Qed.

(** C7, witness. *)
Lemma info_inspector_report_witness :
  exists (info : csv_info) (w' : world),
    get_csv_info (H := cpython) "people.csv" people_world = (inr info, w')
    /\ file_size info = 24
    /\ row_count info = 2
    /\ columns info = ["name"; "age"]
    /\ records_loop ["name"; "age"] [["Alice"; "25"]; ["Bob"; "30"]] []
       = inr (sample_data info).
Proof.
  destruct (info_inspector_report (H := cpython) "people.csv" people_world
              (String.list_byte_of_string people_csv) people_csv
              [["name"; "age"]; ["Alice"; "25"]; ["Bob"; "30"]] None)
    as (info & w' & Hrun & _ & Hsize & _ & _ & _ & Hrows & Hcolumns & Hsample & _).
  - vm_compute. reflexivity.
  - reflexivity.
  - reflexivity.
  - vm_compute. reflexivity.
  - vm_compute. reflexivity.
  - intros _. reflexivity.
  - exists info, w'. cbn in Hcolumns. rewrite Hcolumns in Hsample.
    split; [exact Hrun |]. split; [exact Hsize |]. split; [exact Hrows |].
    split; [exact Hcolumns | exact Hsample].
Defined.

(** C8, witness. *)
Lemma values_text_roundtrip_witness :
  exists (text : string) (rows_back : list (list string)),
    _convert_to_json_format ["h"] [["1"; "x,y"]; []]
      (with_orient "values" default_options) = inr text
    /\ Loads.loads_rows text = Some rows_back
    /\ _convert_to_json_format ["h"] rows_back
         (with_orient "values" default_options) = inr text.
Proof.
  apply (values_text_roundtrip ["h"] [["1"; "x,y"]; []]
           (with_orient "values" default_options)).
  reflexivity.
Defined.


(** C10, witness: the source is opened with the codec name of the options,
    the output with ["utf-8"]. *)
Lemma output_file_is_utf8_witness :
  exists headers data_rows json_data content,
    _convert_to_json_format headers data_rows alias_options = inr json_data
    /\ codec_encode (Platform := cpython) "utf-8" json_data = inr content
    /\ fs (snd (convert_csv_to_json_file (H := cpython) "people.csv" None
                  (Some alias_options) people_world))
       = <["people.json" := File content]> (fs people_world)
    /\ log (snd (convert_csv_to_json_file (H := cpython) "people.csv" None
                   (Some alias_options) people_world))
       = log people_world
         ++ [EvExists "people.csv"; EvOpenRead "people.csv" "utf8";
             EvReadRecords; EvOpenWrite "people.json" "utf-8";
             EvWrite "people.json" json_data].
Proof.
  apply (output_file_is_utf8 (H := cpython) "people.csv" None
           (Some alias_options) people_world
           (snd (convert_csv_to_json_file (H := cpython) "people.csv" None
                   (Some alias_options) people_world))
           "people.json").
  vm_compute. reflexivity.
Defined.

(** * Further properties of the converter and of the tools *)

(** ** What is never written *)

Lemma read_only_ret {A} (a : A) : read_only (ret a).
Proof. intros w. reflexivity. Qed.

Lemma read_only_raise {A} (e : exn) : read_only (raise (A := A) e).
Proof. intros w. reflexivity. Qed.

Lemma read_only_lift {A} (r : exn + A) : read_only (lift r).
Proof. destruct r; intros w; reflexivity. Qed.

Lemma read_only_emit (ev : event) : read_only (emit ev).
Proof. intros w. reflexivity. Qed.

Lemma read_only_get_fs : read_only get_fs.
Proof. intros w. reflexivity. Qed.

Lemma read_only_bind {A B} (m : M A) (k : A -> M B) :
  read_only m -> (forall a, read_only (k a)) -> read_only (bind m k).
Proof.
  intros Hm Hk w. unfold bind. specialize (Hm w).
  destruct (m w) as [[e | a] w1]; cbn in *; [exact Hm |].
  rewrite Hk. exact Hm.
Qed.

Lemma read_only_try_except {A} (body : M A) (h : exn -> M A) :
  read_only body -> (forall e, read_only (h e)) -> read_only (try_except body h).
Proof.
  intros Hb Hh w. unfold try_except. specialize (Hb w).
  destruct (body w) as [[e | a] w1]; cbn in *; [| exact Hb].
  rewrite Hh. exact Hb.
Qed.

Create HintDb read_only.
#[local] Hint Resolve read_only_ret read_only_raise read_only_lift read_only_emit
  read_only_get_fs : read_only.

(** Splits a computation along its binds, handlers and case distinctions. *)
Ltac read_only_step :=
  match goal with
  | |- read_only (bind _ _) => apply read_only_bind
  | |- read_only (try_except _ _) => apply read_only_try_except
  | |- forall _, _ => intro
  | |- read_only (match ?x with _ => _ end) => destruct x
  | |- read_only (let (_, _) := ?x in _) => destruct x
  end.

Ltac solve_read_only := repeat read_only_step; eauto with read_only.

Section FurtherProperties.
Context `{Platform}.

Lemma read_only_path_exists (path : string) : read_only (path_exists path).
Proof. unfold path_exists. solve_read_only. Qed.

Lemma read_only_stat_size (path : string) : read_only (stat_size path).
Proof. unfold stat_size. solve_read_only. Qed.

Lemma read_only_open_read (path encoding : string) :
  read_only (open_read path encoding).
Proof. unfold open_read. solve_read_only. Qed.

Lemma read_only_csv_reader (f : text_file) (delimiter : string) :
  read_only (csv_reader f delimiter).
Proof. unfold csv_reader. solve_read_only. Qed.

Lemma read_only_process_csv_reader (r : reader) (options : CSVConversionOptions) :
  read_only (_process_csv_reader r options).
Proof. unfold _process_csv_reader, list_of_reader. solve_read_only. Qed.

#[local] Hint Resolve read_only_path_exists read_only_stat_size
  read_only_open_read read_only_csv_reader read_only_process_csv_reader
  : read_only.

Lemma read_only_read_csv_data (src : source) (options : CSVConversionOptions) :
  read_only (_read_csv_data src options).
Proof. unfold _read_csv_data. solve_read_only. Qed.

#[local] Hint Resolve read_only_read_csv_data : read_only.

(** X1. The file-to-string entry point, the string entry point and the info
    inspector never change the file system, whether they return or raise. *)
Theorem readers_leave_files_untouched
    (csv_file_path csv_content : string)
    (options : option CSVConversionOptions) (w : world) :
  fs (snd (convert_csv_to_json csv_file_path options w)) = fs w
  /\ fs (snd (convert_csv_string_to_json csv_content options w)) = fs w
  /\ fs (snd (get_csv_info csv_file_path w)) = fs w.
Proof.
  split; [| split].
  - revert w. change (read_only (convert_csv_to_json csv_file_path options)).
    unfold convert_csv_to_json. solve_read_only.
  - revert w.
    change (read_only (convert_csv_string_to_json csv_content options)).
    unfold convert_csv_string_to_json. solve_read_only.
  - revert w. change (read_only (get_csv_info csv_file_path)).
    unfold get_csv_info. solve_read_only.
Qed.

(** ** The exceptions that leave the converter *)

Lemma convert_csv_to_json_raises (csv_file_path : string)
    (options : option CSVConversionOptions) (w w' : world) (e : exn) :
  convert_csv_to_json csv_file_path options w = (inl e, w') ->
  exn_class_of e = FileNotFoundError \/ exn_class_of e = ValueError
  \/ (fs w !! Path csv_file_path = None
      /\ os_stat_error (Path csv_file_path) = Some e).
Proof.
  unfold convert_csv_to_json.
  destruct (fs w !! Path csv_file_path) as [n |] eqn:Hn;
    [| destruct (os_stat_error (Path csv_file_path)) as [e0 |] eqn:Hstat].
  - rewrite (bind_step _ _ _ _ _ (path_exists_found _ _ _ Hn)). cbn [negb].
    destruct (negb _); [intros [= <- _]; right; left; reflexivity |].
    unfold try_except. destruct (bind _ _ _) as [[e0 | a] w1]; [| discriminate].
    destruct (isinstance e0 csv_Error);
      [intros [= <- _]; right; left; reflexivity |].
    destruct (isinstance e0 UnicodeDecodeError);
      intros [= <- _]; right; left; reflexivity.
  - rewrite (bind_raise _ _ _ _ _ (path_exists_fails _ _ _ Hn Hstat)).
    intros [= <- _]. right. right. split; reflexivity.
  - rewrite (bind_step _ _ _ _ _ (path_exists_missing _ _ Hn Hstat)).
    intros [= <- _]. left. reflexivity.
Qed.

Lemma convert_csv_to_json_file_raises (csv_file_path output_file_path : string)
    (options : option CSVConversionOptions) (w w' : world) (e : exn) :
  convert_csv_to_json_file csv_file_path (Some output_file_path) options w
    = (inl e, w') ->
  exn_class_of e = FileNotFoundError \/ exn_class_of e = ValueError
  \/ (fs w !! Path csv_file_path = None
      /\ os_stat_error (Path csv_file_path) = Some e).
Proof.
  unfold convert_csv_to_json_file.
  destruct (fs w !! Path csv_file_path) as [n |] eqn:Hn;
    [| destruct (os_stat_error (Path csv_file_path)) as [e0 |] eqn:Hstat].
  - rewrite (bind_step _ _ _ _ _ (path_exists_found _ _ _ Hn)). cbn [negb].
    destruct (negb _); [intros [= <- _]; right; left; reflexivity |].
    erewrite bind_step by reflexivity.
    unfold try_except. destruct (bind _ _ _) as [[e0 | a] w1]; [| discriminate].
    destruct (isinstance e0 csv_Error);
      [intros [= <- _]; right; left; reflexivity |].
    destruct (isinstance e0 UnicodeDecodeError);
      intros [= <- _]; right; left; reflexivity.
  - rewrite (bind_raise _ _ _ _ _ (path_exists_fails _ _ _ Hn Hstat)).
    intros [= <- _]. right. right. split; reflexivity.
  - rewrite (bind_step _ _ _ _ _ (path_exists_missing _ _ Hn Hstat)).
    intros [= <- _]. left. reflexivity.
Qed.

Lemma convert_csv_string_to_json_raises (csv_content : string)
    (options : option CSVConversionOptions) (w w' : world) (e : exn) :
  convert_csv_string_to_json csv_content options w = (inl e, w') ->
  exn_class_of e = ValueError.
Proof.
  unfold convert_csv_string_to_json, try_except.
  destruct (bind _ _ _) as [[e0 | a] w1]; [| discriminate].
  destruct (isinstance e0 csv_Error); intros [= <- _]; reflexivity.
Qed.

Lemma get_csv_info_raises (csv_file_path : string) (w w' : world) (e : exn) :
  get_csv_info csv_file_path w = (inl e, w') ->
  exn_class_of e = FileNotFoundError \/ exn_class_of e = ValueError
  \/ (fs w !! Path csv_file_path = None
      /\ os_stat_error (Path csv_file_path) = Some e).
Proof.
  unfold get_csv_info.
  destruct (fs w !! Path csv_file_path) as [n |] eqn:Hn;
    [| destruct (os_stat_error (Path csv_file_path)) as [e0 |] eqn:Hstat].
  - rewrite (bind_step _ _ _ _ _ (path_exists_found _ _ _ Hn)). cbn [negb].
    unfold try_except. destruct (bind _ _ _) as [[e0 | a] w1]; [| discriminate].
    intros [= <- _]. right. left. reflexivity.
  - rewrite (bind_raise _ _ _ _ _ (path_exists_fails _ _ _ Hn Hstat)).
    intros [= <- _]. right. right. split; reflexivity.
  - rewrite (bind_step _ _ _ _ _ (path_exists_missing _ _ Hn Hstat)).
    intros [= <- _]. left. reflexivity.
Qed.

(** When the existence test answers, its error is not the one raised. *)
Lemma exists_answers_no_error (path : string) (w : world) (e : exn) :
  exists_answers path w ->
  ~ (fs w !! path = None /\ os_stat_error path = Some e).
Proof.
  intros [Hfound | Hstat] [Hn He].
  - destruct Hfound as [n Hfound]. rewrite Hn in Hfound. discriminate.
  - rewrite Hstat in He. discriminate.
Qed.

Lemma raises_within_intro {A} (classes : list exn_class) (r : (exn + A) * world) :
  (forall e w', r = (inl e, w') -> In (exn_class_of e) classes) ->
  raises_within classes (fst r) = true.
Proof.
  destruct r as [[e | a] w']; cbn; intros Hin; [| reflexivity].
  apply existsb_exists. exists (exn_class_of e).
  split; [apply (Hin e w'); reflexivity |].
  destruct (exn_class_of e); reflexivity.
Qed.

(** X2. Whatever fails inside (the reader, a codec, the operating system,
    the shape), the string entry point raises [ValueError] only. When the
    existence test of the source path answers, the file entry points (for
    file-to-file, when the output path is given) and the info inspector
    raise [FileNotFoundError] or [ValueError] only: no error of the reader,
    of the codecs or of [open] leaves the converter under its own class.
    The existence test is outside every handler: when it fails, its error
    is what the three of them raise. *)
Theorem entry_points_raise_documented_errors
    (csv_file_path csv_content output_file_path : string)
    (options : option CSVConversionOptions) (w : world) :
  raises_within [ValueError]
    (fst (convert_csv_string_to_json csv_content options w)) = true
  /\ (exists_answers (Path csv_file_path) w ->
      raises_within [FileNotFoundError; ValueError]
        (fst (convert_csv_to_json csv_file_path options w)) = true
      /\ raises_within [FileNotFoundError; ValueError]
           (fst (convert_csv_to_json_file csv_file_path (Some output_file_path)
                   options w)) = true
      /\ raises_within [FileNotFoundError; ValueError]
           (fst (get_csv_info csv_file_path w)) = true)
  /\ (forall e : exn,
        fs w !! Path csv_file_path = None ->
        os_stat_error (Path csv_file_path) = Some e ->
        fst (convert_csv_to_json csv_file_path options w) = inl e
        /\ fst (convert_csv_to_json_file csv_file_path (Some output_file_path)
                  options w) = inl e
        /\ fst (get_csv_info csv_file_path w) = inl e).
Proof.
  split; [| split].
  - apply raises_within_intro. intros e w' Hrun.
    apply convert_csv_string_to_json_raises in Hrun as ->. cbn. auto.
  - intros Hanswers.
    repeat split; apply raises_within_intro; intros e w' Hrun.
    + apply convert_csv_to_json_raises in Hrun as [-> | [-> | Hfails]];
        [cbn; auto | cbn; auto |].
      destruct (exists_answers_no_error _ _ _ Hanswers Hfails).
    + apply convert_csv_to_json_file_raises in Hrun as [-> | [-> | Hfails]];
        [cbn; auto | cbn; auto |].
      destruct (exists_answers_no_error _ _ _ Hanswers Hfails).
    + apply get_csv_info_raises in Hrun as [-> | [-> | Hfails]];
        [cbn; auto | cbn; auto |].
      destruct (exists_answers_no_error _ _ _ Hanswers Hfails).
  - intros e Hn Hstat.
    pose proof (path_exists_fails _ _ w Hn Hstat) as Hexists.
    unfold convert_csv_to_json, convert_csv_to_json_file, get_csv_info.
    rewrite !(bind_raise _ _ _ _ _ Hexists). repeat split; reflexivity.
Qed.

(** ** The messages of the tools *)

Lemma isinstance_class (e : exn) (c : exn_class) :
  exn_class_of e = c -> isinstance e c = true.
Proof. intros <-. unfold isinstance. destruct (exn_class_of e); reflexivity. Qed.

Lemma ValueError_not_FileNotFoundError (e : exn) :
  exn_class_of e = ValueError -> isinstance e FileNotFoundError = false.
Proof. intros Hc. unfold isinstance. rewrite Hc. reflexivity. Qed.

(** X3. The last handler of the string tool is never taken: it answers
    with its success message or with the conversion failure message. The
    file tool, given an output path, answers with its success message, the
    missing file message or the conversion failure message when the
    existence test of the source path answers; its last handler is the one
    that meets the error of an existence test that fails, and the answer is
    then the unknown error message. *)
Theorem tools_report_known_categories
    (file_path csv_content output_file_path : string)
    (delimiter encoding : string) (skip_rows : Z) (header : bool)
    (orient : string) (indent : option Z) (w : world) :
  (exists r w',
      convert_csv_string csv_content delimiter skip_rows header orient indent w
      = (inr r, w')
      /\ (response_get r "message" = Some (PyStr "CSV 字符串转换成功")
          \/ response_get r "message" = Some (PyStr "转换失败")))
  /\ (exists_answers (Path file_path) w ->
      exists r w',
        convert_csv_file file_path (Some output_file_path) delimiter encoding
          skip_rows header orient indent w
        = (inr r, w')
        /\ (response_get r "message"
              = Some (PyStr "CSV 文件转换成功，JSON 文件已生成")
            \/ response_get r "message" = Some (PyStr "文件不存在")
            \/ response_get r "message" = Some (PyStr "转换失败")))
  /\ (forall e : exn,
        fs w !! Path file_path = None ->
        os_stat_error (Path file_path) = Some e ->
        isinstance e FileNotFoundError = false ->
        isinstance e ValueError = false ->
        convert_csv_file file_path (Some output_file_path) delimiter encoding
          skip_rows header orient indent w
        = (inr [("success", PyBool false);
                ("error", PyStr (str_of_exn e));
                ("message", PyStr "未知错误")],
           World (fs w) (log w ++ [EvExists (Path file_path)]))).
Proof.
  split; [| split].
  - unfold convert_csv_string, try_except, bind.
    destruct (convert_csv_string_to_json _ _ w) as [[e | j] w'] eqn:Hrun.
    + apply convert_csv_string_to_json_raises in Hrun.
      rewrite (isinstance_class e ValueError Hrun).
      eexists _, _. split; [reflexivity | right; reflexivity].
    + eexists _, _. split; [reflexivity | left; reflexivity].
  - intros Hanswers. unfold convert_csv_file, try_except, bind.
    destruct (convert_csv_to_json_file _ _ _ w) as [[e | j] w'] eqn:Hrun.
    + apply convert_csv_to_json_file_raises in Hrun as [Hc | [Hc | Hfails]].
      * rewrite (isinstance_class e FileNotFoundError Hc).
        eexists _, _. split; [reflexivity | right; left; reflexivity].
      * rewrite (ValueError_not_FileNotFoundError e Hc).
        rewrite (isinstance_class e ValueError Hc).
        eexists _, _. split; [reflexivity | right; right; reflexivity].
      * destruct (exists_answers_no_error _ _ _ Hanswers Hfails).
    + eexists _, _. split; [reflexivity | left; reflexivity].
  - intros e Hn Hstat Hnot_missing Hnot_value.
    unfold convert_csv_file, try_except. unfold bind at 1.
    unfold convert_csv_to_json_file.
    rewrite (bind_raise _ _ _ _ _ (path_exists_fails _ _ _ Hn Hstat)).
    rewrite Hnot_missing, Hnot_value. reflexivity.
Qed.

(** ** A missing source, at every door *)

(** X4. On a path that [stat] does not reach, the file-to-string entry
    point and the info inspector make one call, the existence test, and
    raise before the shape selector is looked at. When the test answers
    that the path does not exist, they raise [FileNotFoundError] with the
    path in the message and the file tool answers with the missing file
    message; when the test itself fails, they raise its error. *)
Theorem missing_source_reported_everywhere
    (file_path : string) (output_file_path : option string)
    (options : option CSVConversionOptions)
    (delimiter encoding : string) (skip_rows : Z) (header : bool)
    (orient : string) (indent : option Z) (w : world) :
  fs w !! Path file_path = None ->
  (os_stat_error (Path file_path) = None ->
   convert_csv_to_json file_path options w
     = (inl (Exn FileNotFoundError ("CSV 文件不存在: " +:+ file_path)),
        World (fs w) (log w ++ [EvExists (Path file_path)]))
   /\ get_csv_info file_path w
     = (inl (Exn FileNotFoundError ("CSV 文件不存在: " +:+ file_path)),
        World (fs w) (log w ++ [EvExists (Path file_path)]))
   /\ convert_csv_file file_path output_file_path delimiter encoding skip_rows
        header orient indent w
     = (inr [("success", PyBool false);
             ("error", PyStr ("CSV 文件不存在: " +:+ file_path));
             ("message", PyStr "文件不存在")],
        World (fs w) (log w ++ [EvExists (Path file_path)])))
  /\ (forall e : exn,
        os_stat_error (Path file_path) = Some e ->
        convert_csv_to_json file_path options w
          = (inl e, World (fs w) (log w ++ [EvExists (Path file_path)]))
        /\ get_csv_info file_path w
          = (inl e, World (fs w) (log w ++ [EvExists (Path file_path)]))).
Proof.
  intros Hmissing. split.
  - intros Hstat.
    pose proof (path_exists_missing _ w Hmissing Hstat) as Hexists.
    split; [| split].
    + unfold convert_csv_to_json.
      rewrite (bind_step _ _ _ _ _ Hexists). reflexivity.
    + unfold get_csv_info.
      rewrite (bind_step _ _ _ _ _ Hexists). reflexivity.
    + unfold convert_csv_file, try_except. unfold bind at 1.
      unfold convert_csv_to_json_file.
      rewrite (bind_step _ _ _ _ _ Hexists). reflexivity.
  - intros e Hstat.
    pose proof (path_exists_fails _ _ w Hmissing Hstat) as Hexists.
    split.
    + unfold convert_csv_to_json. apply bind_raise. exact Hexists.
    + unfold get_csv_info. apply bind_raise. exact Hexists.
Qed.

(** ** A source that does not decode *)


(** ** The file-to-file entry point, step by step *)

Lemma open_write_inv (path encoding : string) w u w' :
  open_write path encoding w = (inr u, w') ->
  (forall size, fs w !! path <> Some (Dir size))
  /\ os_open_error true path = None
  /\ codec_known encoding = true.
Proof.
  unfold open_write, bind, emit, get_fs, put_node, raise, ret. cbn.
  destruct (fs w !! path) as [[content | size] |]; try discriminate;
    destruct (os_open_error true path); try discriminate;
    destruct (codec_known encoding); try discriminate;
    intros _; repeat split; intros size'; discriminate.
Qed.

(** *** Computations that look at a few files *)

Lemma local_ret (paths : list string) {A} (a : A) : local_on paths (ret a).
Proof.
  intros w1 w2 _. exists (inr a), []. rewrite !app_nil_r.
  destruct w1, w2. split; reflexivity.
Qed.

Lemma local_raise (paths : list string) {A} (e : exn) :
  local_on paths (raise (A := A) e).
Proof.
  intros w1 w2 _. exists (inl e), []. rewrite !app_nil_r.
  destruct w1, w2. split; reflexivity.
Qed.


Lemma local_emit (paths : list string) (ev : event) : local_on paths (emit ev).
Proof. intros w1 w2 _. exists (inr tt), [ev]. split; reflexivity. Qed.

Lemma local_bind (paths : list string) {A B} (m : M A) (k : A -> M B) :
  local_on paths m -> (forall a, local_on paths (k a)) ->
  local_on paths (bind m k).
Proof.
  intros Hm Hk w1 w2 Hsame.
  destruct (Hm w1 w2 Hsame) as (r & events & Hm1 & Hm2).
  unfold bind. rewrite Hm1, Hm2. destruct r as [e | a].
  - exists (inl e), events. split; reflexivity.
  - destruct (Hk a (World (fs w1) (log w1 ++ events))
                   (World (fs w2) (log w2 ++ events)) Hsame)
      as (r' & events' & Hk1 & Hk2).
    exists r', (events ++ events'). rewrite Hk1, Hk2. cbn [fs log].
    rewrite <- !app_assoc. split; reflexivity.
Qed.





Lemma local_csv_reader (paths : list string) (f : text_file)
    (delimiter : string) :
  local_on paths (csv_reader f delimiter).
Proof.
  unfold csv_reader. destruct (csv_dialect_error delimiter);
    [apply local_raise | apply local_ret].
Qed.

Lemma local_process_csv_reader (paths : list string) (r : reader)
    (options : CSVConversionOptions) :
  local_on paths (_process_csv_reader r options).
Proof.
  unfold _process_csv_reader, list_of_reader.
  apply local_bind.
  - apply local_bind; [apply local_emit |]. intros _.
    destruct r as [rows [e |]]; [apply local_raise | apply local_ret].
  - intros rows.
    destruct (if skip_rows options >? 0
              then slice_from rows (skip_rows options) else rows);
      [apply local_ret |].
    destruct (header options); apply local_ret.
Qed.


Lemma local_read_csv_data_string (content : string)
    (options : CSVConversionOptions) :
  local_on [] (_read_csv_data (SrcStringIO content) options).
Proof.
  unfold _read_csv_data.
  apply local_bind; [apply local_csv_reader |]. intros r.
  apply local_process_csv_reader.
Qed.





(** Everything a successful file-to-file call has done. *)
Lemma convert_file_success_inv
    (csv_file_path : string) (output_file_path : option string)
    (options : option CSVConversionOptions) (w w' : world) (written : string) :
  convert_csv_to_json_file csv_file_path output_file_path options w
    = (inr written, w') ->
  exists table json_data w2 w3,
    is_Some (fs w !! Path csv_file_path)
    /\ str_in (orient (options_or_default options)) supported_formats = true
    /\ match output_file_path with
       | Some p => written = Path p
       | None => with_suffix (Path csv_file_path) ".json" = inr written
       end
    /\ _read_csv_data (SrcPath (Path csv_file_path))
         (options_or_default options)
         (World (fs w) (log w ++ [EvExists (Path csv_file_path)]))
       = (inr table, w2)
    /\ _convert_to_json_format (fst table) (snd table)
         (options_or_default options) = inr json_data
    /\ open_write written "utf-8" w2 = (inr tt, w3)
    /\ file_write written "utf-8" json_data w3 = (inr tt, w').
Proof.
  intros Hrun. unfold convert_csv_to_json_file in Hrun.
  apply bind_inr in Hrun as (found & w0 & Hexists & Hrun).
  apply path_exists_inr in Hexists as [-> Hnode].
  destruct found; [| discriminate].
  cbn [negb] in Hrun.
  destruct (str_in _ supported_formats) eqn:Horient; [| discriminate].
  cbn [negb] in Hrun.
  apply bind_inr in Hrun as (out & w1 & Hout & Hrun).
  assert (Hw1 : w1 = World (fs w) (log w ++ [EvExists (Path csv_file_path)])
                /\ match output_file_path with
                   | Some p => out = Path p
                   | None => with_suffix (Path csv_file_path) ".json" = inr out
                   end).
  { destruct output_file_path as [p |]; cbn in Hout.
    - injection Hout as Hp Hw. split; congruence.
    - destruct (with_suffix (Path csv_file_path) ".json"); cbn in Hout;
        [discriminate |]. injection Hout as Hp Hw. split; congruence. }
  destruct Hw1 as [-> Hmatch].
  apply try_except_inr in Hrun.
  2: { intros e w3. destruct (isinstance e csv_Error); [eexists; reflexivity |].
       destruct (isinstance e UnicodeDecodeError); eexists; reflexivity. }
  apply bind_inr in Hrun as ([headers data_rows] & w2 & Hread & Hrun).
  apply bind_inr in Hrun as (json_data & w2' & Hjson & Hrun).
  apply bind_inr in Hrun as ([] & w3 & Hopen & Hrun).
  apply bind_inr in Hrun as ([] & w4 & Hwrite & Hrun).
  injection Hrun as Hwritten Hw'. subst out w4.
  apply lift_inr in Hjson as [Hjson ->].
  exists (headers, data_rows), json_data, w2, w3.
  repeat split; assumption.
Qed.

(** The file system after a successful file-to-file call. *)
Lemma convert_file_success_fs
    (csv_file_path : string) (output_file_path : option string)
    (options : option CSVConversionOptions) (w w' : world) (written : string) :
  convert_csv_to_json_file csv_file_path output_file_path options w
    = (inr written, w') ->
  exists json_data content,
    convert_csv_to_json csv_file_path options w
    = (inr json_data,
       World (fs w)
             (log w ++ [EvExists (Path csv_file_path);
                        EvOpenRead (Path csv_file_path)
                                   (encoding (options_or_default options));
                        EvReadRecords]))
    /\ codec_encode "utf-8" json_data = inr content
    /\ fs w' = <[written := File content]> (fs w)
    /\ (forall size, fs w !! written <> Some (Dir size))
    /\ os_open_error true written = None
    /\ codec_known "utf-8" = true.
Proof.
  intros Hrun.
  apply convert_file_success_inv in Hrun
    as ([headers data_rows] & json_data & w2 & w3 & [n Hnode] & Horient
        & _ & Hread & Hjson & Hopen & Hwrite).
  pose proof (read_csv_data_path_inr _ _ _ _ _ Hread) as Hw2. cbn [fs log] in Hw2.
  pose proof (open_write_inv _ _ _ _ _ Hopen) as (Hdir & Hos & Hknown).
  apply open_write_inr in Hopen.
  apply file_write_inr in Hwrite as (content & Hencode & Hw').
  subst w' w3 w2. cbn [fs log] in *.
  exists json_data, content.
  split; [| split; [exact Hencode |
            split; [apply insert_insert_eq |
            split; [exact Hdir | split; [exact Hos | exact Hknown]]]]].
  unfold convert_csv_to_json.
  rewrite (bind_step _ _ _ _ _ (path_exists_found _ _ _ Hnode)).
  cbn [negb]. rewrite Horient. cbn [negb].
  unfold try_except. erewrite bind_step by exact Hread.
  cbn [fst snd] in Hjson. cbv beta iota. rewrite Hjson. cbn.
  rewrite <- !app_assoc. reflexivity.
Qed.

(** X7. The file-to-file entry point writes what the file-to-string entry
    point returns: when it succeeds, file-to-string succeeds on the same
    world with some text, and the output file holds exactly the UTF-8
    encoding of that text. *)
Theorem file_variant_writes_the_string_variant
    (csv_file_path : string) (output_file_path : option string)
    (options : option CSVConversionOptions) (w w' : world) (written : string) :
  convert_csv_to_json_file csv_file_path output_file_path options w
    = (inr written, w') ->
  exists json_data content,
    fst (convert_csv_to_json csv_file_path options w) = inr json_data
    /\ codec_encode "utf-8" json_data = inr content
    /\ fs w' !! written = Some (File content).
Proof.
  intros Hrun.
  apply convert_file_success_fs in Hrun
    as (json_data & content & Hstring & Hencode & Hfs & _).
  exists json_data, content. rewrite Hstring, Hfs.
  split; [reflexivity |]. split; [exact Hencode | apply lookup_insert_eq].
Qed.

(** X8. When the file-to-file entry point succeeds, the path it returns is
    the normalised output path it was given or, when none was given, the
    source path with its suffix replaced by [.json]. *)
Theorem output_path_given_or_derived
    (csv_file_path : string) (output_file_path : option string)
    (options : option CSVConversionOptions) (w w' : world) (written : string) :
  convert_csv_to_json_file csv_file_path output_file_path options w
    = (inr written, w') ->
  match output_file_path with
  | Some p => written = Path p
  | None => with_suffix (Path csv_file_path) ".json" = inr written
  end.
Proof.
  intros Hrun.
  apply convert_file_success_inv in Hrun
    as (_ & _ & _ & _ & _ & _ & Hmatch & _). exact Hmatch.
Qed.

(** ** Dictionaries: the last field wins *)

Lemma dict_get_set_eq (d : dict) (k v : string) :
  dict_get (dict_set d k v) k = Some v.
Proof.
  induction d as [| [k' v'] d IH]; cbn.
  - rewrite String.eqb_refl. reflexivity.
  - destruct (String.eqb_spec k' k) as [-> | Hne]; cbn.
    + rewrite String.eqb_refl. reflexivity.
    + destruct (String.eqb_spec k' k); [contradiction | exact IH].
Qed.

Lemma dict_get_set_ne (d : dict) (k k0 v : string) :
  k <> k0 -> dict_get (dict_set d k v) k0 = dict_get d k0.
Proof.
  intros Hne. induction d as [| [k' v'] d IH]; cbn.
  - destruct (String.eqb_spec k k0); [contradiction | reflexivity].
  - destruct (String.eqb_spec k' k) as [-> | Hk']; cbn.
    + destruct (String.eqb_spec k k0); [contradiction | reflexivity].
    + rewrite IH. reflexivity.
Qed.

Lemma dict_keys_set (d : dict) (k v : string) :
  dict_keys (dict_set d k v)
  = if existsb (String.eqb k) (dict_keys d) then dict_keys d
    else dict_keys d ++ [k].
Proof.
  unfold dict_keys. induction d as [| [k' v'] d IH]; [reflexivity |].
  cbn. rewrite (String.eqb_sym k k').
  destruct (String.eqb_spec k' k) as [-> | Hne]; cbn; [reflexivity |].
  rewrite IH. destruct (existsb _ _); reflexivity.
Qed.

Lemma existsb_eqb_In (k : string) (l : list string) :
  existsb (String.eqb k) l = true <-> In k l.
Proof.
  rewrite existsb_exists. split.
  - intros (x & Hin & Heq). apply String.eqb_eq in Heq. subst. exact Hin.
  - intros Hin. exists k. split; [exact Hin | apply String.eqb_refl].
Qed.

Lemma dict_set_keys_In (d : dict) (k v k0 : string) :
  In k0 (dict_keys (dict_set d k v)) <-> In k0 (dict_keys d) \/ k0 = k.
Proof.
  rewrite dict_keys_set.
  destruct (existsb (String.eqb k) (dict_keys d)) eqn:Hex.
  - apply existsb_eqb_In in Hex. split; [auto |].
    intros [Hin | ->]; assumption.
  - rewrite in_app_iff. cbn. intuition congruence.
Qed.

Lemma dict_set_keys_NoDup (d : dict) (k v : string) :
  List.NoDup (dict_keys d) -> List.NoDup (dict_keys (dict_set d k v)).
Proof.
  intros Hnodup. rewrite dict_keys_set.
  destruct (existsb (String.eqb k) (dict_keys d)) eqn:Hex; [exact Hnodup |].
  apply List.NoDup_app; [exact Hnodup | |].
  - constructor; [intros [] | constructor].
  - intros x Hx [<- | []]. apply existsb_eqb_In in Hx. congruence.
Qed.

Lemma fold_dict_set_keys (hs rs : list string) (acc : dict) :
  length hs = length rs ->
  List.NoDup (dict_keys acc) ->
  let d := fold_left (fun d kv => dict_set d (fst kv) (snd kv))
                     (combine hs rs) acc in
  List.NoDup (dict_keys d)
  /\ forall k, In k (dict_keys d) <-> In k (dict_keys acc) \/ In k hs.
Proof.
  revert rs acc. induction hs as [| h hs IH]; intros [| r rs] acc Hlen Hnodup;
    try discriminate; cbn [combine fold_left fst snd].
  - split; [exact Hnodup |]. intros k. cbn. tauto.
  - destruct (IH rs (dict_set acc h r)) as [Hnd Hkeys];
      [cbn in Hlen; lia | apply dict_set_keys_NoDup; exact Hnodup |].
    split; [exact Hnd |]. intros k. rewrite Hkeys, dict_set_keys_In. cbn.
    intuition congruence.
Qed.

Lemma fold_dict_set_get_other (hs rs : list string) (acc : dict) (k : string) :
  ~ In k hs ->
  dict_get (fold_left (fun d kv => dict_set d (fst kv) (snd kv))
                      (combine hs rs) acc) k
  = dict_get acc k.
Proof.
  revert rs acc. induction hs as [| h hs IH]; intros [| r rs] acc Hnotin;
    try reflexivity.
  cbn [combine fold_left fst snd]. rewrite IH.
  - apply dict_get_set_ne. intros ->. apply Hnotin. left. reflexivity.
  - intros Hin. apply Hnotin. right. exact Hin.
Qed.

Lemma fold_dict_set_get_last (hs rs : list string) (acc : dict)
    (i : nat) (k v : string) :
  hs !! i = Some k -> rs !! i = Some v ->
  (forall j, (i < j)%nat -> hs !! j <> Some k) ->
  dict_get (fold_left (fun d kv => dict_set d (fst kv) (snd kv))
                      (combine hs rs) acc) k
  = Some v.
Proof.
  revert rs acc i. induction hs as [| h hs IH]; intros [| r rs] acc i Hk Hv Hlast;
    try discriminate.
  cbn [combine fold_left fst snd]. destruct i as [| i].
  - cbn in Hk, Hv. injection Hk as ->. injection Hv as ->.
    rewrite fold_dict_set_get_other; [apply dict_get_set_eq |].
    intros Hin. apply list_elem_of_In, list_elem_of_lookup in Hin as [j Hj].
    apply (Hlast (S j)); [lia | exact Hj].
  - apply (IH rs _ i); [exact Hk | exact Hv |].
    intros j Hlt. apply (Hlast (S j)). lia.
Qed.

(** X10. The object built for a row of the header's width: the comprehension
    does not raise; the keys of the object are pairwise distinct and are
    exactly the names that occur in the header; and under each name the object
    holds the field at the last position where the header has that name. *)
Theorem record_keeps_last_field_per_name (headers row : list string) :
  length row = length headers ->
  exists record : dict,
    dict_comprehension headers row (range (length headers)) [] = inr record
    /\ List.NoDup (dict_keys record)
    /\ (forall k, In k (dict_keys record) <-> In k headers)
    /\ forall (i : nat) (k v : string),
         headers !! i = Some k -> row !! i = Some v ->
         (forall j, (i < j)%nat -> headers !! j <> Some k) ->
         dict_get record k = Some v.
Proof.
  intros Hlen. exists (record_of headers row).
  split; [apply dict_comprehension_record; exact Hlen |].
  destruct (fold_dict_set_keys headers row []) as [Hnd Hkeys];
    [symmetry; exact Hlen | constructor |].
  split; [exact Hnd |]. split.
  - intros k. unfold record_of. rewrite Hkeys. cbn. tauto.
  - intros i k v Hk Hv Hlast. apply (fold_dict_set_get_last _ _ _ i); assumption.
Qed.

(** ** Skipping past the end *)

(** X11. Skipping at least as many rows as the reader yields is not an
    error: the table is empty, so the ['records'] and the ['values'] texts are
    [[]] whatever the indentation, and the ['split'] text is the object with
    an empty ["columns"] and an empty ["data"]. An empty source is the case
    of no record at all. *)
Theorem skipping_everything_gives_empty_output
    (records : list (list string)) (options : CSVConversionOptions) (w : world) :
  Z.of_nat (length records) <= skip_rows options ->
  fst (_process_csv_reader (records, None) options w) = inr ([], [])
  /\ (orient options = "records" \/ orient options = "values" ->
      _convert_to_json_format [] [] options = inr "[]")
  /\ (orient options = "split" ->
      _convert_to_json_format [] [] options
      = inr (dumps (JDict [("columns", JList []); ("data", JList [])])
                   (indent options))).
Proof.
  intros Hskip. split; [| split].
  - unfold _process_csv_reader, list_of_reader, bind, emit, ret. cbn.
    rewrite skip_rows_drop, drop_ge by lia. reflexivity.
  - intros [Ho | Ho]; unfold _convert_to_json_format, shape; rewrite Ho;
      reflexivity.
  - intros Ho. unfold _convert_to_json_format, shape. rewrite Ho. reflexivity.
Qed.

(** ** The ['values'] text determines the rows *)

(** X12. Two tables whose ['values'] texts are equal, under the same
    options, have the same rows: the text loses nothing, whatever the cells
    hold (quotes, commas, line breaks, control characters). *)
Theorem values_text_determines_rows
    (headers headers' : list string) (data_rows data_rows' : list (list string))
    (options : CSVConversionOptions) :
  orient options = "values" ->
  _convert_to_json_format headers data_rows options
  = _convert_to_json_format headers' data_rows' options ->
  data_rows = data_rows'.
Proof.
  intros Horient.
  assert (Htext : forall h r,
             _convert_to_json_format h r options
             = inr (dumps (json_of_rows r) (indent options))).
  { intros h r. unfold _convert_to_json_format, shape. rewrite Horient.
    reflexivity. }
  rewrite !Htext. intros Heq. injection Heq as Heq.
  apply (f_equal Loads.loads_rows) in Heq.
  rewrite !LoadsDumps.loads_dumps_rows in Heq. congruence.
Qed.

(** ** Tables without a header line *)

Lemma to_uint_not_Nil (n : nat) : Nat.to_uint n <> Decimal.Nil.
Proof.
  rewrite <- (DecimalNat.Unsigned.of_to n), DecimalNat.Unsigned.to_of.
  unfold Decimal.unorm. destruct (Decimal.nzhead _); discriminate.
Qed.

Lemma str_of_nat_inj (i j : nat) : str_of_nat i = str_of_nat j -> i = j.
Proof.
  unfold str_of_nat. intros Heq.
  apply (f_equal NilZero.uint_of_string) in Heq.
  rewrite !NilZero.usu in Heq by apply to_uint_not_Nil.
  injection Heq as Heq. apply DecimalNat.Unsigned.to_uint_inj. exact Heq.
Qed.

Lemma column_names_NoDup (n : nat) :
  List.NoDup (map (fun i => "column_" +:+ str_of_nat i) (seq 0 n)).
Proof.
  apply Finite.Injective_map_NoDup; [| apply List.seq_NoDup].
  intros i j Heq. cbn in Heq. injection Heq as Heq.
  apply str_of_nat_inj. exact Heq.
Qed.

(** X13. With [header] off, the names the table reader makes up are
    pairwise distinct and as many as the first remaining record has fields,
    and that record is itself the first data row. So in the ['records'] shape
    it comes out first and whole, each field under its own [column_i], and
    the rows after it follow when they have its width. *)
Theorem headerless_table_keeps_first_record
    (records : list (list string)) (options : CSVConversionOptions) (w : world)
    (first : list string) (rest : list (list string)) :
  header options = false ->
  skipn (Z.to_nat (skip_rows options)) records = first :: rest ->
  exists headers : list string,
    fst (_process_csv_reader (records, None) options w)
      = inr (headers, first :: rest)
    /\ length headers = length first
    /\ List.NoDup headers
    /\ records_loop headers (first :: rest) []
       = inr (combine headers first
              :: map (combine headers)
                     (List.filter (has_width (length first)) rest)).
Proof.
  intros Hheader Hskip.
  set (headers := map (fun i => "column_" +:+ str_of_nat i)
                      (seq 0 (length first))).
  assert (Hlen : length headers = length first).
  { unfold headers. rewrite length_map, length_seq. reflexivity. }
  assert (Hnodup : List.NoDup headers) by apply column_names_NoDup.
  exists headers. split; [| split; [exact Hlen | split; [exact Hnodup |]]].
  - unfold _process_csv_reader, list_of_reader, bind, emit, ret. cbn.
    rewrite skip_rows_drop, Hskip, Hheader. reflexivity.
  - rewrite records_loop_filter. cbn [app List.filter]. rewrite Hlen.
    unfold has_width at 1. rewrite Nat.eqb_refl. cbn [map].
    rewrite record_of_distinct by (exact Hnodup || (symmetry; exact Hlen)).
    f_equal. f_equal. apply map_ext_in. intros row Hin.
    apply record_of_distinct; [exact Hnodup |].
    pose proof (filter_has_width (length first) rest) as Hw.
    rewrite List.Forall_forall in Hw. rewrite (Hw row Hin). symmetry. exact Hlen.
Qed.

(** ** The compact text is one line *)

Lemma json_induction (P : json -> Prop) :
  (forall s, P (JStr s)) ->
  (forall items, Forall P items -> P (JList items)) ->
  (forall items, Forall (fun kv => P (snd kv)) items -> P (JDict items)) ->
  forall o, P o.
Proof.
  intros Hstr Hlist Hdict. fix IH 1. intros [s | items | items].
  - apply Hstr.
  - apply Hlist. induction items as [| x items IHitems]; constructor;
      [apply IH | exact IHitems].
  - apply Hdict. induction items as [| [k x] items IHitems]; constructor;
      [apply IH | exact IHitems].
Qed.

Lemma no_control_append (a b : string) :
  no_control (a +:+ b) = no_control a && no_control b.
Proof.
  induction a as [| c a IH]; [reflexivity |].
  cbn. rewrite IH. apply andb_assoc.
Qed.

Lemma no_control_escape_char (c : ascii) :
  match escape_char c with
  | Some r => no_control r
  | None => (32 <=? N_of_ascii c)%N
  end = true.
Proof. destruct c as [[] [] [] [] [] [] [] []]; reflexivity. Qed.

Lemma no_control_escape (s : string) : no_control (escape s) = true.
Proof.
  induction s as [| c s IH]; [reflexivity |].
  pose proof (no_control_escape_char c) as Hc. cbn [escape].
  destruct (escape_char c) as [r |].
  - rewrite no_control_append, Hc, IH. reflexivity.
  - cbn. rewrite Hc, IH. reflexivity.
Qed.

Lemma no_control_encode_basestring (s : string) :
  no_control (encode_basestring s) = true.
Proof.
  unfold encode_basestring. cbn. rewrite no_control_append, no_control_escape.
  reflexivity.
Qed.

Lemma no_control_join (sep : string) (parts : list string) :
  no_control sep = true ->
  Forall (fun part => no_control part = true) parts ->
  no_control (join sep parts) = true.
Proof.
  intros Hsep Hparts. induction Hparts as [| part parts Hpart Hparts IH];
    [reflexivity |].
  destruct parts as [| part' parts]; [exact Hpart |].
  rewrite join_cons, !no_control_append, Hpart, Hsep, IH. reflexivity.
Qed.

Lemma no_control_iterencode (o : json) :
  forall level, no_control (iterencode None level o) = true.
Proof.
  induction o as [s | items IH | items IH] using json_induction; intros level.
  - apply no_control_encode_basestring.
  - destruct items as [| x items]; [reflexivity |].
    rewrite iterencode_list. cbn [newline_indent item_separator].
    rewrite !no_control_append, no_control_join; [reflexivity | reflexivity |].
    apply Forall_map. eapply Forall_impl; [exact IH |].
    intros y Hy. apply Hy.
  - destruct items as [| kv items]; [reflexivity |].
    change (iterencode None level (JDict (kv :: items)))
      with ("{" +:+ newline_indent None (S level)
            +:+ join (item_separator None +:+ newline_indent None (S level))
                     (map (fun kv => encode_basestring (fst kv) +:+ key_separator
                                     +:+ iterencode None (S level) (snd kv))
                          (kv :: items))
            +:+ newline_indent None level +:+ "}").
    cbn [newline_indent item_separator].
    rewrite !no_control_append, no_control_join; [reflexivity | reflexivity |].
    apply Forall_map. eapply Forall_impl; [exact IH |].
    intros y Hy. cbn beta. rewrite !no_control_append,
      no_control_encode_basestring, Hy. reflexivity.
Qed.

(** X14. Without indentation the text of every shape is a single line: it
    holds no line break and no other control character, whatever the header
    and the cells hold; a line break inside a cell is written as an escape. *)
Theorem compact_text_is_one_line
    (headers : list string) (data_rows : list (list string))
    (options : CSVConversionOptions) (text : string) :
  indent options = None ->
  _convert_to_json_format headers data_rows options = inr text ->
  no_control text = true.
Proof.
  intros Hindent. unfold _convert_to_json_format.
  destruct (shape headers data_rows options) as [e | result]; [discriminate |].
  intros [= <-]. rewrite Hindent. apply no_control_iterencode.
Qed.

(** ** A file and the text it holds *)

Lemma translate_no_carriage_return (s : string) :
  no_carriage_return s = true -> translate_newlines s = s.
Proof.
  induction s as [| c s IH]; [reflexivity |].
  cbn. destruct (Ascii.eqb c Chr.CR); [discriminate |].
  cbn. intros Hs. rewrite IH by exact Hs. reflexivity.
Qed.

Lemma try_except_fst_inr {A} (body : M A) (h : exn -> M A) (w : world) (a : A) :
  (forall e w1, exists e', h e w1 = (inl e', w1)) ->
  fst (try_except body h w) = inr a <-> fst (body w) = inr a.
Proof.
  intros Hh. unfold try_except.
  destruct (body w) as [[e | a0] w1]; [| reflexivity].
  destruct (Hh e w1) as [e' ->]. cbn. split; discriminate.
Qed.

(** X15. Converting a file is converting the text it holds: when the source
    opens and decodes to a text without carriage returns, the file-to-string
    entry point returns a text exactly when the string entry point returns
    it for the decoded text, under the same options. (A carriage return is
    translated when a file is read, and not when a string is.) *)
Theorem file_entry_is_string_entry_on_the_decoded_text
    (csv_file_path : string) (options : CSVConversionOptions) (w w0 : world)
    (content : list Byte.byte) (text json_text : string) :
  fs w !! Path csv_file_path = Some (File content) ->
  os_open_error false (Path csv_file_path) = None ->
  codec_known (encoding options) = true ->
  codec_decode (encoding options) content = inr text ->
  no_carriage_return text = true ->
  str_in (orient options) supported_formats = true ->
  fst (convert_csv_to_json csv_file_path (Some options) w) = inr json_text
  <-> fst (convert_csv_string_to_json text (Some options) w0) = inr json_text.
Proof.
  intros Hfile Hopen Hknown Hdecode Hcr Horient.
  unfold convert_csv_to_json, convert_csv_string_to_json.
  rewrite (bind_step _ _ _ _ _ (path_exists_found _ _ _ Hfile)).
  cbn [negb options_or_default]. rewrite Horient. cbn [negb].
  rewrite !try_except_fst_inr.
  2: { intros e w1. destruct (isinstance e csv_Error); eexists; reflexivity. }
  2: { intros e w1. destruct (isinstance e csv_Error); [eexists; reflexivity |].
       destruct (isinstance e UnicodeDecodeError); eexists; reflexivity. }
  set (w1 := World (fs w) (log w ++ [EvExists (Path csv_file_path)])).
  assert (Hread : exists w2,
             _read_csv_data (SrcPath (Path csv_file_path)) options w1
             = _read_csv_data (SrcStringIO text) options w2).
  { unfold _read_csv_data.
    erewrite bind_step
      by (apply open_read_file; [exact Hfile | exact Hopen | exact Hknown]).
    rewrite Hdecode. unfold StringIO, file_lines, StringIO_lines.
    rewrite translate_no_carriage_return by exact Hcr.
    eexists. reflexivity. }
  destruct Hread as [w2 Hread].
  destruct (local_read_csv_data_string text options w2 w0)
    as (r & events & Hr2 & Hr0); [intros p [] |].
  unfold bind. rewrite Hread, Hr2, Hr0.
  destruct r as [e | [headers data_rows]]; [reflexivity |].
  unfold lift. destruct (_convert_to_json_format headers data_rows options);
    reflexivity.
Qed.

(** ** The string side makes no call to the operating system *)

Lemma read_string_log (content : string) (options : CSVConversionOptions) w :
  exists r events,
    _read_csv_data (SrcStringIO content) options w
    = (r, World (fs w) (log w ++ events))
    /\ (events = [] \/ events = [EvReadRecords]).
Proof.
  unfold _read_csv_data, csv_reader.
  destruct (csv_dialect_error (delimiter options)) as [e |].
  - exists (inl e), []. rewrite app_nil_r. destruct w. split; [reflexivity | auto].
  - erewrite bind_step by reflexivity.
    match goal with
    | |- context [_process_csv_reader ?rd options w] =>
        exists (fst (_process_csv_reader rd options w)), [EvReadRecords];
        split; [| auto];
        rewrite <- (process_csv_reader_world rd options w)
    end.
    apply surjective_pairing.
Qed.

(** X16. The string entry point and the string tool open nothing and write
    nothing: the file system is left as it was, and the only call that can
    be logged is the reading of the records from the buffer. *)
Theorem string_side_makes_no_system_call
    (csv_content : string) (options : option CSVConversionOptions)
    (delimiter : string) (skip_rows : Z) (header : bool) (orient : string)
    (indent : option Z) (w : world) :
  (exists events,
      snd (convert_csv_string_to_json csv_content options w)
      = World (fs w) (log w ++ events)
      /\ (events = [] \/ events = [EvReadRecords]))
  /\ (exists events,
        snd (convert_csv_string csv_content delimiter skip_rows header orient
               indent w)
        = World (fs w) (log w ++ events)
        /\ (events = [] \/ events = [EvReadRecords])).
Proof.
  assert (Hconv : forall options,
             exists events,
               snd (convert_csv_string_to_json csv_content options w)
               = World (fs w) (log w ++ events)
               /\ (events = [] \/ events = [EvReadRecords])).
  { intros o. unfold convert_csv_string_to_json, try_except, bind.
    destruct (read_string_log csv_content (options_or_default o) w)
      as (r & events & -> & Hevents).
    exists events. split; [| exact Hevents].
    destruct r as [e | [headers data_rows]].
    - destruct (isinstance e csv_Error); reflexivity.
    - destruct (_convert_to_json_format headers data_rows (options_or_default o))
        as [e | text]; cbn; [destruct (isinstance e csv_Error) |]; reflexivity. }
  split; [apply Hconv |].
  unfold convert_csv_string, try_except, bind.
  destruct (Hconv (Some {| delimiter := delimiter; encoding := "utf-8";
                           skip_rows := skip_rows; header := header;
                           orient := orient; indent := indent |}))
    as (events & Hsnd & Hevents).
  exists events. split; [| exact Hevents].
  destruct (convert_csv_string_to_json _ _ w) as [[e | j] w1]; cbn in Hsnd;
    subst w1; [destruct (isinstance e ValueError) |]; reflexivity.
Qed.

End FurtherProperties.

(** * Instances of the further properties on the executable platform *)

(** X2, witness: a source that exists, and a name on which the existence
    test fails. *)
Lemma entry_points_raise_documented_errors_witness :
  (raises_within [FileNotFoundError; ValueError]
     (fst (convert_csv_to_json (H := cpython) "people.csv" (Some pivot_options)
             people_world)) = true
   /\ raises_within [FileNotFoundError; ValueError]
        (fst (convert_csv_to_json_file (H := cpython) "people.csv"
                (Some "out.json") (Some pivot_options) people_world)) = true
   /\ raises_within [FileNotFoundError; ValueError]
        (fst (get_csv_info (H := cpython) "people.csv" people_world)) = true)
  /\ exists e : exn,
       os_stat_error (Platform := cpython) long_name = Some e
       /\ fst (convert_csv_to_json (H := cpython) long_name None (World ∅ []))
          = inl e
       /\ fst (convert_csv_to_json_file (H := cpython) long_name
                 (Some "out.json") None (World ∅ [])) = inl e
       /\ fst (get_csv_info (H := cpython) long_name (World ∅ [])) = inl e.
Proof.
  split.
  - apply (proj1 (proj2 (entry_points_raise_documented_errors (H := cpython)
                           "people.csv" people_csv "out.json"
                           (Some pivot_options) people_world))).
    left. eexists. vm_compute. reflexivity.
  - eexists. split; [vm_compute; reflexivity |].
    apply (proj2 (proj2 (entry_points_raise_documented_errors (H := cpython)
                           long_name people_csv "out.json" None (World ∅ []))));
      vm_compute; reflexivity.
Defined.

(** X3, witness: a source that exists, and a name on which the existence
    test fails. *)
Lemma tools_report_known_categories_witness :
  (exists r w',
     convert_csv_file (H := cpython) "people.csv" (Some "out.json") "," "utf-8"
       0 true "records" None people_world
     = (inr r, w')
     /\ (response_get r "message"
           = Some (PyStr "CSV 文件转换成功，JSON 文件已生成")
         \/ response_get r "message" = Some (PyStr "文件不存在")
         \/ response_get r "message" = Some (PyStr "转换失败")))
  /\ exists e : exn,
       os_stat_error (Platform := cpython) long_name = Some e
       /\ convert_csv_file (H := cpython) long_name (Some "out.json") "," "utf-8"
            0 true "records" None (World ∅ [])
          = (inr [("success", PyBool false);
                  ("error", PyStr (str_of_exn e));
                  ("message", PyStr "未知错误")],
             World ∅ [EvExists long_name]).
Proof.
  split.
  - apply (proj1 (proj2 (tools_report_known_categories (H := cpython)
                           "people.csv" people_csv "out.json" "," "utf-8" 0
                           true "records" None people_world))).
    left. eexists. vm_compute. reflexivity.
  - eexists. split; [vm_compute; reflexivity |].
    apply (proj2 (proj2 (tools_report_known_categories (H := cpython)
                           long_name people_csv "out.json" "," "utf-8" 0
                           true "records" None (World ∅ []))));
      vm_compute; reflexivity.
Defined.

(** X4, witness: a path that does not exist, and a name on which the
    existence test fails. *)
Lemma missing_source_reported_everywhere_witness :
  (convert_csv_to_json (H := cpython) "missing.csv" (Some pivot_options)
     people_world
   = (inl (Exn FileNotFoundError "CSV 文件不存在: missing.csv"),
      World (fs people_world) [EvExists "missing.csv"])
   /\ get_csv_info (H := cpython) "missing.csv" people_world
     = (inl (Exn FileNotFoundError "CSV 文件不存在: missing.csv"),
        World (fs people_world) [EvExists "missing.csv"])
   /\ convert_csv_file (H := cpython) "missing.csv" None "," "utf-8" 0 true
        "pivot" None people_world
     = (inr [("success", PyBool false);
             ("error", PyStr "CSV 文件不存在: missing.csv");
             ("message", PyStr "文件不存在")],
        World (fs people_world) [EvExists "missing.csv"]))
  /\ exists e : exn,
       os_stat_error (Platform := cpython) long_name = Some e
       /\ convert_csv_to_json (H := cpython) long_name (Some pivot_options)
            people_world
          = (inl e, World (fs people_world) [EvExists long_name])
       /\ get_csv_info (H := cpython) long_name people_world
          = (inl e, World (fs people_world) [EvExists long_name]).
Proof.
  split.
  - apply (proj1 (missing_source_reported_everywhere (H := cpython)
                    "missing.csv" None (Some pivot_options) "," "utf-8" 0 true
                    "pivot" None people_world eq_refl)).
    reflexivity.
  - eexists. split; [vm_compute; reflexivity |].
    apply (proj2 (missing_source_reported_everywhere (H := cpython)
                    long_name None (Some pivot_options) "," "utf-8" 0 true
                    "pivot" None people_world eq_refl)).
    vm_compute. reflexivity.
Defined.



(** X7, witness. *)
Lemma file_variant_writes_the_string_variant_witness :
  exists json_data content,
    fst (convert_csv_to_json (H := cpython) "people.csv" None people_world)
      = inr json_data
    /\ codec_encode (Platform := cpython) "utf-8" json_data = inr content
    /\ fs (snd (convert_csv_to_json_file (H := cpython) "people.csv" None None
                  people_world)) !! "people.json"
       = Some (File content).
Proof.
  apply (file_variant_writes_the_string_variant (H := cpython) "people.csv"
           None None people_world
           (snd (convert_csv_to_json_file (H := cpython) "people.csv" None None
                   people_world))
           "people.json").
  vm_compute. reflexivity.
Defined.

(** X8, witness. *)
Lemma output_path_given_or_derived_witness :
  with_suffix (Platform := cpython) "people.csv" ".json" = inr "people.json".
Proof.
  apply (output_path_given_or_derived (H := cpython) "people.csv" None None
           people_world
           (snd (convert_csv_to_json_file (H := cpython) "people.csv" None None
                   people_world))
           "people.json").
  vm_compute. reflexivity.
Defined.

(** X10, witness: the header repeats a name. *)
Lemma record_keeps_last_field_per_name_witness :
  exists record : dict,
    dict_comprehension ["id"; "tag"; "tag"] ["7"; "old"; "new"] (range 3) []
      = inr record
    /\ List.NoDup (dict_keys record)
    /\ (forall k, In k (dict_keys record) <-> In k ["id"; "tag"; "tag"])
    /\ forall (i : nat) (k v : string),
         ["id"; "tag"; "tag"] !! i = Some k ->
         ["7"; "old"; "new"] !! i = Some v ->
         (forall j, (i < j)%nat -> ["id"; "tag"; "tag"] !! j <> Some k) ->
         dict_get record k = Some v.
Proof.
  apply (record_keeps_last_field_per_name ["id"; "tag"; "tag"]
           ["7"; "old"; "new"]).
  reflexivity.
Defined.

(** X11, witness: three rows skipped out of two. *)
Lemma skipping_everything_gives_empty_output_witness :
  fst (_process_csv_reader ([["a"; "b"]; ["1"; "2"]], None)
         (with_skip_rows 3 default_options) (World ∅ []))
  = inr ([], [])
  /\ _convert_to_json_format [] [] (with_skip_rows 3 default_options) = inr "[]".
Proof.
  destruct (skipping_everything_gives_empty_output [["a"; "b"]; ["1"; "2"]]
              (with_skip_rows 3 default_options) (World ∅ []))
    as (Htable & Htext & _).
  - cbn. lia.
  - split; [exact Htable |]. apply Htext. left. reflexivity.
Defined.

(** X12, witness. *)
Lemma values_text_determines_rows_witness :
  [["1"; "x,y"]; []] = [["1"; "x,y"]; []].
Proof.
  apply (values_text_determines_rows ["h"] ["k"] [["1"; "x,y"]; []]
           [["1"; "x,y"]; []] (with_orient "values" default_options));
    reflexivity.
Defined.

(** X13, witness. *)
Lemma headerless_table_keeps_first_record_witness :
  exists headers : list string,
    fst (_process_csv_reader ([["a"; "b"]; ["1"]; ["2"; "3"]], None)
           no_header_options (World ∅ []))
      = inr (headers, [["a"; "b"]; ["1"]; ["2"; "3"]])
    /\ length headers = 2%nat
    /\ List.NoDup headers
    /\ records_loop headers [["a"; "b"]; ["1"]; ["2"; "3"]] []
       = inr (combine headers ["a"; "b"]
              :: map (combine headers) [["2"; "3"]]).
Proof.
  apply (headerless_table_keeps_first_record [["a"; "b"]; ["1"]; ["2"; "3"]]
           no_header_options (World ∅ []) ["a"; "b"] [["1"]; ["2"; "3"]]);
    reflexivity.
Defined.

(** X14, witness: a cell with a line break. *)
Lemma compact_text_is_one_line_witness :
  no_control (dumps (json_of_rows [["a" +:+ newline +:+ "b"]]) None) = true.
Proof.
  apply (compact_text_is_one_line ["h"] [["a" +:+ newline +:+ "b"]]
           (with_orient "values" default_options));
    reflexivity.
Defined.

(** X15, witness. *)
Lemma file_entry_is_string_entry_on_the_decoded_text_witness :
  fst (convert_csv_to_json (H := cpython) "people.csv" (Some default_options)
         people_world)
    = inr (dumps (JList [JDict [("name", JStr "Alice"); ("age", JStr "25")];
                         JDict [("name", JStr "Bob"); ("age", JStr "30")]])
                 None)
  <-> fst (convert_csv_string_to_json (H := cpython) people_csv
             (Some default_options) (World ∅ []))
      = inr (dumps (JList [JDict [("name", JStr "Alice"); ("age", JStr "25")];
                           JDict [("name", JStr "Bob"); ("age", JStr "30")]])
                   None).
Proof.
  apply (file_entry_is_string_entry_on_the_decoded_text (H := cpython)
           "people.csv" default_options people_world (World ∅ [])
           (String.list_byte_of_string people_csv) people_csv);
    vm_compute; reflexivity.
Defined.
